(** * MPU6050: the I2C driver of src/MPU6050.py, embedded and verified

    The driver talks to an MPU-6050 accelerometer / gyroscope / thermometer
    through [smbus].  The class is embedded method by method: the bus, the
    console and Python's exceptions are the effects of a small state and
    error monad; Python's [float] is IEEE binary64, which is Rocq's
    primitive [float].  The source is read as Python 3: [/] on two ints is
    true division. *)

From Stdlib Require Import ZArith Lia List String.
From Stdlib Require Import Uint63 PrimFloat.
From stdpp Require Import gmap strings.

Local Open Scope string_scope.
Local Open Scope list_scope.
Local Open Scope Z_scope.

(** Decimal literals denote the nearest binary64 value, as in Python. *)
Set Warnings "-inexact-float".

(** ** The machine the driver runs on *)

(** One transaction on the two-wire bus, as [smbus] receives it. *)
Inductive bus_op : Type :=
| BusRead (addr reg : Z)
| BusWrite (addr reg val : Z).

(** The exceptions the driver can meet. *)
Inductive pyexn : Type :=
| NameError (name : string)
| TypeError (msg : string)
| IOError (addr reg : Z).

(** The world outside the driver.  [bus_mem] holds the byte of every
    register that answers, keyed by device address and register number; a
    cell that is not there is a device (or register) that does not answer.
    [bus_log] is the traffic so far, oldest first; [stdout] the printed
    lines, oldest first. *)
Record world : Type := World {
  bus_mem : gmap (Z * Z) Z;
  bus_log : list bus_op;
  stdout : list string
}.

Inductive result (A : Type) : Type :=
| Ok (a : A)
| Raise (e : pyexn).
Arguments Ok {A} a.
Arguments Raise {A} e.

Definition M (A : Type) : Type := world -> result A * world.

Definition ret {A} (a : A) : M A := fun w => (Ok a, w).

Definition bind {A B} (m : M A) (k : A -> M B) : M B :=
  fun w => match m w with
           | (Ok a, w') => k a w'
           | (Raise e, w') => (Raise e, w')
           end.

Definition raise {A} (e : pyexn) : M A := fun w => (Raise e, w).

Declare Scope py_scope.
Delimit Scope py_scope with py.
Notation "x <- m ;; k" := (bind m (fun x => k))
  (at level 100, m at next level, right associativity) : py_scope.
Notation "m ;;; k" := (bind m (fun _ => k))
  (at level 100, right associativity) : py_scope.
Local Open Scope py_scope.

(** [smbus.SMBus.read_byte_data(addr, reg)]: the transaction goes on the
    wire, and fails with [IOError] when nothing answers. *)
Definition read_byte_data (addr reg : Z) : M Z :=
  fun w =>
    let w' := World (bus_mem w) (bus_log w ++ [BusRead addr reg]) (stdout w) in
    match bus_mem w !! (addr, reg) with
    | Some b => (Ok b, w')
    | None => (Raise (IOError addr reg), w')
    end.

(** [smbus.SMBus.write_byte_data(addr, reg, val)]. *)
Definition write_byte_data (addr reg val : Z) : M unit :=
  fun w =>
    match bus_mem w !! (addr, reg) with
    | Some _ =>
        (Ok tt, World (<[(addr, reg) := val]> (bus_mem w))
                      (bus_log w ++ [BusWrite addr reg val]) (stdout w))
    | None =>
        (Raise (IOError addr reg),
         World (bus_mem w) (bus_log w ++ [BusWrite addr reg val]) (stdout w))
    end.

(** [print(s)]. *)
Definition print (s : string) : M unit :=
  fun w => (Ok tt, World (bus_mem w) (bus_log w) (stdout w ++ [s])).

(** ** Python values *)

#[warnings="-register-all"]
Inductive pyval : Type :=
| PyNone
| PyBool (b : bool)
| PyInt (z : Z)
| PyFloat (f : float)
| PyStr (s : string)
| PyObject (name : string)
| PyList (xs : list pyval)
| PyDict (kvs : list (string * pyval)).

(** [v is True] and [v is False]: identity with the two singletons. *)
Definition is_True (v : pyval) : bool :=
  match v with PyBool true => true | _ => false end.
Definition is_False (v : pyval) : bool :=
  match v with PyBool false => true | _ => false end.

(** [float(z)] for an int that binary64 holds exactly (below 2^53 in
    magnitude; every int of the driver is a 16-bit sample or 340). *)
Definition float_of_int (z : Z) : float :=
  if z <? 0 then PrimFloat.opp (PrimFloat.of_uint63 (Uint63.of_Z (- z)))
  else PrimFloat.of_uint63 (Uint63.of_Z z).

(** Python 3 arithmetic as the driver uses it: [a / b] on two ints (true
    division, a float), [a / m] on an int and a float, [f * m] and [f + m]
    on floats.  The int operand is converted first; on ints that binary64
    holds exactly this is the correctly rounded quotient Python computes. *)
Definition int_truediv (a b : Z) : float :=
  PrimFloat.div (float_of_int a) (float_of_int b).
Definition int_div_float (a : Z) (m : float) : float :=
  PrimFloat.div (float_of_int a) m.

(** [v == z] for an int [z]. *)
Definition py_eq_int (v : pyval) (z : Z) : bool :=
  match v with
  | PyInt z' => z' =? z
  | PyBool b => Z.b2z b =? z
  | PyFloat f => PrimFloat.eqb f (float_of_int z)
  | _ => false
  end.

(** The names bound at module level while a method runs: the import, the
    class and, under [__main__], the variables of the demonstration.  The
    module defines no function of its own, and none of the names below is a
    builtin. *)
Definition module_globals : list string :=
  ["smbus"; "MPU6050"; "mpu"; "accelData"; "gyroData"].

(** Evaluation of a bare name inside a method: a method has no local or
    enclosing binding for the names it calls, so the lookup goes to the
    module. *)
Definition load_global (name : string) : M pyval :=
  if existsb (String.eqb name) module_globals then ret (PyObject name)
  else raise (NameError name).

(** [f()], a call without arguments, of what a global name can hold here:
    the class wants an address, a module or an instance is not callable. *)
Definition call0 (f : pyval) : M pyval :=
  match f with
  | PyObject "MPU6050" =>
      raise (TypeError "__init__() missing 1 required positional argument: 'address'")
  | _ => raise (TypeError "object is not callable")
  end.

(** ** The class MPU6050 *)

Module MPU6050.

Definition GRAVITIY_MS2 : float := 9.80665%float.

Definition ACCEL_SCALE_MODIFIER_2G : float := 16384.0%float.
Definition ACCEL_SCALE_MODIFIER_4G : float := 8192.0%float.
Definition ACCEL_SCALE_MODIFIER_8G : float := 4096.0%float.
Definition ACCEL_SCALE_MODIFIER_16G : float := 2048.0%float.

Definition GYRO_SCALE_MODIFIER_250DEG : float := 131.0%float.
Definition GYRO_SCALE_MODIFIER_500DEG : float := 65.5%float.
Definition GYRO_SCALE_MODIFIER_1000DEG : float := 32.8%float.
Definition GYRO_SCALE_MODIFIER_2000DEG : float := 16.4%float.

Definition ACCEL_RANGE_2G : Z := 0x00.
Definition ACCEL_RANGE_4G : Z := 0x08.
Definition ACCEL_RANGE_8G : Z := 0x10.
Definition ACCEL_RANGE_16G : Z := 0x18.

Definition GYRO_RANGE_250DEG : Z := 0x00.
Definition GYRO_RANGE_500DEG : Z := 0x08.
Definition GYRO_RANGE_1000DEG : Z := 0x10.
Definition GYRO_RANGE_2000DEG : Z := 0x18.

Definition PWR_MGMT_1 : Z := 0x6B.
Definition PWR_MGMT_2 : Z := 0x6C.

Definition ACCEL_XOUT0 : Z := 0x3B.
Definition ACCEL_YOUT0 : Z := 0x3D.
Definition ACCEL_ZOUT0 : Z := 0x3F.
Definition TEMP_OUT0 : Z := 0x41.
Definition GYRO_XOUT0 : Z := 0x43.
Definition GYRO_YOUT0 : Z := 0x45.
Definition GYRO_ZOUT0 : Z := 0x47.

Definition ACCEL_CONFIG : Z := 0x1C.
Definition GYRO_CONFIG : Z := 0x1B.

(** An instance: [self.address] (the bus is the class attribute shared
    by all instances, and lives in the [world]). *)
Record self_t : Type := Self { address : Z }.

Definition read_i2c_word (self : self_t) (register : Z) : M Z :=
  high <- read_byte_data (address self) register ;;
  low <- read_byte_data (address self) (register + 1) ;;
  let value := Z.shiftl high 8 + low in
  if value >=? 0x8000 then ret (- ((65535 - value) + 1))
  else ret value.


(** [__init__]: wakes the device, which starts in sleep mode. *)
Definition init (addr : Z) : M self_t :=
  let self := Self addr in
  write_byte_data (address self) PWR_MGMT_1 0x00 ;;;
  ret self.

Definition get_temp (self : self_t) : M pyval :=
  rawTemp <- read_i2c_word self TEMP_OUT0 ;;
  let actualTemp := PrimFloat.add (int_truediv rawTemp 340) 36.53%float in
  ret (PyFloat actualTemp).

Definition set_accel_range (self : self_t) (accelRange : Z) : M pyval :=
  write_byte_data (address self) ACCEL_CONFIG 0x00 ;;;
  write_byte_data (address self) ACCEL_CONFIG accelRange ;;;
  ret PyNone.

Definition read_accel_range (self : self_t) (raw : pyval) : M pyval :=
  rawData <- read_byte_data (address self) ACCEL_CONFIG ;;
  if is_True raw then ret (PyInt rawData)
  else if is_False raw then
    if rawData =? ACCEL_RANGE_2G then ret (PyInt 2)
    else if rawData =? ACCEL_RANGE_4G then ret (PyInt 4)
    else if rawData =? ACCEL_RANGE_8G then ret (PyInt 8)
    else if rawData =? ACCEL_RANGE_16G then ret (PyInt 16)
    else ret (PyInt (-1))
  else ret PyNone.

Definition get_accel_data (self : self_t) (g : pyval) : M pyval :=
  x <- read_i2c_word self ACCEL_XOUT0 ;;
  y <- read_i2c_word self ACCEL_YOUT0 ;;
  z <- read_i2c_word self ACCEL_ZOUT0 ;;
  accelRange <- read_accel_range self (PyBool true) ;;
  accelScaleModifier <-
    (if py_eq_int accelRange ACCEL_RANGE_2G then ret ACCEL_SCALE_MODIFIER_2G
     else if py_eq_int accelRange ACCEL_RANGE_4G then ret ACCEL_SCALE_MODIFIER_4G
     else if py_eq_int accelRange ACCEL_RANGE_8G then ret ACCEL_SCALE_MODIFIER_8G
     else if py_eq_int accelRange ACCEL_RANGE_16G then ret ACCEL_SCALE_MODIFIER_16G
     else
       print "Unkown range - accelScaleModifier set to self.ACCEL_SCALE_MODIFIER_2G" ;;;
       ret ACCEL_SCALE_MODIFIER_2G) ;;
  let x := int_div_float x accelScaleModifier in
  let y := int_div_float y accelScaleModifier in
  let z := int_div_float z accelScaleModifier in
  if is_True g then
    ret (PyDict [("x", PyFloat x); ("y", PyFloat y); ("z", PyFloat z)])
  else if is_False g then
    let x := PrimFloat.mul x GRAVITIY_MS2 in
    let y := PrimFloat.mul y GRAVITIY_MS2 in
    let z := PrimFloat.mul z GRAVITIY_MS2 in
    ret (PyDict [("x", PyFloat x); ("y", PyFloat y); ("z", PyFloat z)])
  else ret PyNone.

Definition set_gyro_range (self : self_t) (gyroRange : Z) : M pyval :=
  write_byte_data (address self) GYRO_CONFIG 0x00 ;;;
  write_byte_data (address self) GYRO_CONFIG gyroRange ;;;
  ret PyNone.

Definition read_gyro_range (self : self_t) (raw : pyval) : M pyval :=
  rawData <- read_byte_data (address self) GYRO_CONFIG ;;
  if is_True raw then ret (PyInt rawData)
  else if is_False raw then
    if rawData =? GYRO_RANGE_250DEG then ret (PyInt 250)
    else if rawData =? GYRO_RANGE_500DEG then ret (PyInt 500)
    else if rawData =? GYRO_RANGE_1000DEG then ret (PyInt 1000)
    else if rawData =? GYRO_RANGE_2000DEG then ret (PyInt 2000)
    else ret (PyInt (-1))
  else ret PyNone.

Definition get_gyro_data (self : self_t) : M pyval :=
  x <- read_i2c_word self GYRO_XOUT0 ;;
  y <- read_i2c_word self GYRO_YOUT0 ;;
  z <- read_i2c_word self GYRO_ZOUT0 ;;
  gyroRange <- read_gyro_range self (PyBool true) ;;
  gyroScaleModifier <-
    (if py_eq_int gyroRange GYRO_RANGE_250DEG then ret GYRO_SCALE_MODIFIER_250DEG
     else if py_eq_int gyroRange GYRO_RANGE_500DEG then ret GYRO_SCALE_MODIFIER_500DEG
     else if py_eq_int gyroRange GYRO_RANGE_1000DEG then ret GYRO_SCALE_MODIFIER_1000DEG
     else if py_eq_int gyroRange GYRO_RANGE_2000DEG then ret GYRO_SCALE_MODIFIER_2000DEG
     else
       print "Unkown range - gyroScaleModifier set to self.GYRO_SCALE_MODIFIER_250DEG" ;;;
       ret GYRO_SCALE_MODIFIER_250DEG) ;;
  let x := int_div_float x gyroScaleModifier in
  let y := int_div_float y gyroScaleModifier in
  let z := int_div_float z gyroScaleModifier in
  ret (PyDict [("x", PyFloat x); ("y", PyFloat y); ("z", PyFloat z)]).

(** The three calls are written without [self.], so each callee is looked
    up as a global name. *)
Definition get_all_data (self : self_t) : M pyval :=
  temp <- (f <- load_global "get_temp" ;; call0 f) ;;
  accel <- (f <- load_global "get_accel_data" ;; call0 f) ;;
  gyro <- (f <- load_global "get_gyro_data" ;; call0 f) ;;
  ret (PyList [accel; gyro; temp]).

End MPU6050.

Import MPU6050.

(** ** Vocabulary of the statements *)

(** Register [reg] of the device at [addr] answers with byte [b]. *)
Definition holds (w : world) (addr reg b : Z) : Prop :=
  bus_mem w !! (addr, reg) = Some b.

(** The world after the transactions [ops] went over the bus, registers and
    console untouched; and after [lines] were printed. *)
Definition logged (ops : list bus_op) (w : world) : world :=
  World (bus_mem w) (bus_log w ++ ops) (stdout w).
Definition printed (lines : list string) (w : world) : world :=
  World (bus_mem w) (bus_log w) (stdout w ++ lines).

(** The traffic a call [m] adds to the bus. *)
Definition traffic {A} (m : M A) (w : world) : list bus_op :=
  skipn (length (bus_log w)) (bus_log (snd (m w))).

(** Two's-complement decoding of a 16-bit value, in the specification's
    words. *)
Definition signExtend (v : Z) : Z :=
  if v <? 0x8000 then v else v - 0x10000.

(** The arithmetic [read_i2c_word] does on the two bytes it read. *)
Definition raw_word (high low : Z) : Z :=
  let value := Z.shiftl high 8 + low in
  if value >=? 0x8000 then - ((65535 - value) + 1) else value.

(** The two bytes the device shows for a signed 16-bit sample. *)
Definition high_byte (raw : Z) : Z := (raw mod 0x10000) / 0x100.
Definition low_byte (raw : Z) : Z := raw mod 0x100.

(** A device at 0x68, asleep, with both ranges at their reset value:
    acceleration (16384, -16384, 0), temperature sample 340, angular rate
    (131, -131, 0). *)
Definition sample_device : world :=
  World (list_to_map
           [((0x68, PWR_MGMT_1), 0x40);
            ((0x68, ACCEL_CONFIG), 0x00); ((0x68, GYRO_CONFIG), 0x00);
            ((0x68, 0x3B), 0x40); ((0x68, 0x3C), 0x00);
            ((0x68, 0x3D), 0xC0); ((0x68, 0x3E), 0x00);
            ((0x68, 0x3F), 0x00); ((0x68, 0x40), 0x00);
            ((0x68, 0x41), 0x01); ((0x68, 0x42), 0x54);
            ((0x68, 0x43), 0x00); ((0x68, 0x44), 0x83);
            ((0x68, 0x45), 0xFF); ((0x68, 0x46), 0x7D);
            ((0x68, 0x47), 0x00); ((0x68, 0x48), 0x00)])
        [] [].

(** The world with byte [b] in register [reg] of the device at 0x68. *)
Definition with_register (reg b : Z) (w : world) : world :=
  World (<[(0x68, reg) := b]> (bus_mem w)) (bus_log w) (stdout w).

(** The register pair at [reg] shows the signed 16-bit sample [raw]. *)
Definition shows (w : world) (addr reg raw : Z) : Prop :=
  -32768 <= raw <= 32767
  /\ holds w addr reg (high_byte raw)
  /\ holds w addr (reg + 1) (low_byte raw).

(** The dictionary a three-axis measurement returns. *)
Definition xyz (x y z : float) : pyval :=
  PyDict [("x", PyFloat x); ("y", PyFloat y); ("z", PyFloat z)].

(** The scale modifier paired with each range encoding. *)
Definition accel_scale_table : list (Z * float) :=
  [(ACCEL_RANGE_2G, ACCEL_SCALE_MODIFIER_2G);
   (ACCEL_RANGE_4G, ACCEL_SCALE_MODIFIER_4G);
   (ACCEL_RANGE_8G, ACCEL_SCALE_MODIFIER_8G);
   (ACCEL_RANGE_16G, ACCEL_SCALE_MODIFIER_16G)].
Definition gyro_scale_table : list (Z * float) :=
  [(GYRO_RANGE_250DEG, GYRO_SCALE_MODIFIER_250DEG);
   (GYRO_RANGE_500DEG, GYRO_SCALE_MODIFIER_500DEG);
   (GYRO_RANGE_1000DEG, GYRO_SCALE_MODIFIER_1000DEG);
   (GYRO_RANGE_2000DEG, GYRO_SCALE_MODIFIER_2000DEG)].
Definition scale_of (table : list (Z * float)) (cfg : Z) : option float :=
  option_map snd (find (fun p => cfg =? fst p) table).

(** Scale resolution as a relation: [m] is the modifier paired with [cfg],
    or [cfg] is in no pair and [m] is the fallback. *)
Definition resolved (table : list (Z * float)) (fallback : float)
           (cfg : Z) (m : float) : Prop :=
  In (cfg, m) table \/ (~ In cfg (map fst table) /\ m = fallback).

(** The lines the measurement calls print when the range byte is unknown. *)
Definition accel_warning : string :=
  "Unkown range - accelScaleModifier set to self.ACCEL_SCALE_MODIFIER_2G".
Definition gyro_warning : string :=
  "Unkown range - gyroScaleModifier set to self.GYRO_SCALE_MODIFIER_250DEG".

(** The bus traffic of one three-axis measurement whose output registers
    start at [xout] and whose range is in [config]. *)
Definition measurement_reads (addr xout config : Z) : list bus_op :=
  [BusRead addr xout; BusRead addr (xout + 1);
   BusRead addr (xout + 2); BusRead addr (xout + 2 + 1);
   BusRead addr (xout + 4); BusRead addr (xout + 4 + 1);
   BusRead addr config].

(** "The call first reads the range configuration register". *)
Definition range_read_first (addr config : Z) (ops : list bus_op) : Prop :=
  hd_error ops = Some (BusRead addr config).

(** [m] only reads the device at [addr]: it changes no register, and when it
    raises, it raises the [IOError] of a register among [regs] that does not
    answer, the failed read being the last transaction on the bus. *)
Definition bus_reader (addr : Z) (regs : list Z) {A} (m : M A) : Prop :=
  forall w,
    bus_mem (snd (m w)) = bus_mem w
    /\ forall e, fst (m w) = Raise e ->
         exists reg pre,
           In reg regs /\ e = IOError addr reg
           /\ bus_mem w !! (addr, reg) = None
           /\ bus_log (snd (m w)) = pre ++ [BusRead addr reg].

(** [m] never writes: every transaction it adds to the bus log is a read,
    nothing already in the log is touched, and no register changes. *)
Definition is_read (op : bus_op) : bool :=
  match op with
  | BusRead _ _ => true
  | BusWrite _ _ _ => false
  end.
Definition reads_only {A} (m : M A) : Prop :=
  forall w,
    bus_mem (snd (m w)) = bus_mem w
    /\ exists ops,
         bus_log (snd (m w)) = bus_log w ++ ops /\ forallb is_read ops = true.

(** The registers each measurement reads. *)
Definition temp_registers : list Z := [TEMP_OUT0; TEMP_OUT0 + 1].
Definition accel_registers : list Z :=
  [ACCEL_XOUT0; ACCEL_XOUT0 + 1; ACCEL_YOUT0; ACCEL_YOUT0 + 1;
   ACCEL_ZOUT0; ACCEL_ZOUT0 + 1; ACCEL_CONFIG].
Definition gyro_registers : list Z :=
  [GYRO_XOUT0; GYRO_XOUT0 + 1; GYRO_YOUT0; GYRO_YOUT0 + 1;
   GYRO_ZOUT0; GYRO_ZOUT0 + 1; GYRO_CONFIG].

(** The value [read_accel_range(False)] and [read_gyro_range(False)] give
    for each range encoding. *)
Definition accel_nominal : list (Z * Z) :=
  [(ACCEL_RANGE_2G, 2); (ACCEL_RANGE_4G, 4);
   (ACCEL_RANGE_8G, 8); (ACCEL_RANGE_16G, 16)].
Definition gyro_nominal : list (Z * Z) :=
  [(GYRO_RANGE_250DEG, 250); (GYRO_RANGE_500DEG, 500);
   (GYRO_RANGE_1000DEG, 1000); (GYRO_RANGE_2000DEG, 2000)].

(** [p] holds of [lo], [lo + 1], ..., [lo + n - 1]. *)
Fixpoint forall_range (lo : Z) (n : nat) (p : Z -> bool) : bool :=
  match n with
  | O => true
  | S n' => p lo && forall_range (lo + 1) n' p
  end.

(** [|v| <= bound] on binary64. *)
Definition within (bound v : float) : bool :=
  PrimFloat.leb (PrimFloat.abs v) bound.

(** ** Running the monad *)

Lemma bind_ok {A B} (m : M A) (k : A -> M B) (w w' : world) (a : A) :
  m w = (Ok a, w') -> bind m k w = k a w'.
Proof. intros H. unfold bind. rewrite H. reflexivity. Qed.

Lemma logged_logged (o1 o2 : list bus_op) (w : world) :
  logged o2 (logged o1 w) = logged (o1 ++ o2) w.
Proof. unfold logged. cbn. rewrite <- app_assoc. reflexivity. Qed.

Lemma holds_logged (ops : list bus_op) (w : world) (addr reg b : Z) :
  holds w addr reg b -> holds (logged ops w) addr reg b.
Proof. exact (fun H => H). Qed.

Lemma traffic_logged {A} (m : M A) (w : world) (r : result A)
      (ops : list bus_op) (w' : world) :
  m w = (r, w') -> bus_log w' = bus_log w ++ ops -> traffic m w = ops.
Proof.
  intros Hm Hlog. unfold traffic. rewrite Hm. cbn [snd]. rewrite Hlog.
  rewrite skipn_app, skipn_all, Nat.sub_diag. reflexivity.
Qed.

(** ** Register transaction layer *)

Lemma read_byte_data_ok (w : world) (addr reg b : Z) :
  holds w addr reg b ->
  read_byte_data addr reg w = (Ok b, logged [BusRead addr reg] w).
Proof. intros H. unfold read_byte_data. rewrite H. reflexivity. Qed.

Lemma write_byte_data_ok (w : world) (addr reg b val : Z) :
  holds w addr reg b ->
  write_byte_data addr reg val w =
    (Ok tt, World (<[(addr, reg) := val]> (bus_mem w))
                  (bus_log w ++ [BusWrite addr reg val]) (stdout w)).
Proof. intros H. unfold write_byte_data. rewrite H. reflexivity. Qed.

Lemma read_i2c_word_ok (self : self_t) (w : world) (register high low : Z) :
  holds w (address self) register high ->
  holds w (address self) (register + 1) low ->
  read_i2c_word self register w =
    (Ok (raw_word high low),
     logged [BusRead (address self) register;
             BusRead (address self) (register + 1)] w).
Proof.
  intros Hh Hl. unfold read_i2c_word.
  rewrite (bind_ok _ _ _ _ _ (read_byte_data_ok _ _ _ _ Hh)).
  rewrite (bind_ok _ _ _ _ _ (read_byte_data_ok _ _ _ _ (holds_logged _ _ _ _ _ Hl))).
  rewrite logged_logged. unfold raw_word, ret. cbn [app].
  destruct (Z.shiftl high 8 + low >=? 0x8000); reflexivity.
Qed.

Lemma shiftl8_add_lor (high low : Z) :
  0 <= low < 256 -> Z.shiftl high 8 + low = Z.lor (Z.shiftl high 8) low.
Proof.
  intros Hlow.
  assert (Hland : Z.land (Z.shiftl high 8) low = 0).
  { apply Z.bits_inj'. intros n Hn. rewrite Z.land_spec, Z.bits_0.
    destruct (Z_lt_le_dec n 8) as [Hlt | Hge].
    - rewrite Z.shiftl_spec_low by lia. reflexivity.
    - replace (Z.testbit low n) with false; [apply andb_false_r |].
      symmetry. destruct (Z.eq_dec low 0) as [-> | Hnz]; [apply Z.bits_0 |].
      apply Z.bits_above_log2; [lia |].
      apply Z.lt_le_trans with 8; [| lia].
      apply Z.log2_lt_pow2; lia. }
  rewrite Z.add_nocarry_lxor by exact Hland.
  apply Z.lxor_lor. exact Hland.
Qed.

Lemma raw_word_signExtend (high low : Z) :
  0 <= high <= 255 -> 0 <= low <= 255 ->
  raw_word high low = signExtend (Z.lor (Z.shiftl high 8) low).
Proof.
  intros Hh Hl. unfold raw_word, signExtend.
  rewrite <- (shiftl8_add_lor high low) by lia.
  rewrite Z.shiftl_mul_pow2 by lia. change (2 ^ 8) with 256.
  destruct (Z.geb_spec (high * 256 + low) 0x8000),
           (Z.ltb_spec (high * 256 + low) 0x8000); lia.
Qed.

Lemma raw_word_bytes (raw : Z) :
  -32768 <= raw <= 32767 -> raw_word (high_byte raw) (low_byte raw) = raw.
Proof.
  intros Hr. unfold raw_word, high_byte, low_byte.
  rewrite Z.shiftl_mul_pow2 by lia. change (2 ^ 8) with 256.
  assert (Hsplit : raw mod 65536 / 256 * 256 + raw mod 256 = raw mod 65536).
  { replace (raw mod 256) with ((raw mod 65536) mod 256).
    - pose proof (Z.div_mod (raw mod 65536) 256). lia.
    - apply Z.mod_mod_divide. exists 256. lia. }
  cbv zeta. rewrite Hsplit.
  destruct (Z_lt_le_dec raw 0) as [Hneg | Hpos].
  - replace (raw mod 65536) with (raw + 65536)
      by (apply Z.mod_unique with (-1); lia).
    destruct (Z.geb_spec (raw + 65536) 0x8000); lia.
  - rewrite Z.mod_small by lia.
    destruct (Z.geb_spec raw 0x8000); lia.
Qed.

(** C1: for bytes [high] and [low] in 0..255, held by a register and the
    next one, [read_i2c_word] returns the two's-complement decoding of
    [(high << 8) | low]: the composed value when it is below 0x8000, the
    composed value minus 0x10000 otherwise; 0x7FFF gives 32767, 0x8000 gives
    -32768 and 0xFFFF gives -1. *)
Theorem read_i2c_word_twos_complement
        (self : self_t) (register high low : Z) (w : world) :
  0 <= high <= 255 -> 0 <= low <= 255 ->
  holds w (address self) register high ->
  holds w (address self) (register + 1) low ->
  fst (read_i2c_word self register w)
    = Ok (signExtend (Z.lor (Z.shiftl high 8) low))
  /\ (Z.lor (Z.shiftl high 8) low < 0x8000 ->
      fst (read_i2c_word self register w) = Ok (Z.lor (Z.shiftl high 8) low))
  /\ (0x8000 <= Z.lor (Z.shiftl high 8) low ->
      fst (read_i2c_word self register w)
        = Ok (Z.lor (Z.shiftl high 8) low - 0x10000))
  /\ (Z.lor (Z.shiftl high 8) low = 0x7FFF ->
      fst (read_i2c_word self register w) = Ok 32767)
  /\ (Z.lor (Z.shiftl high 8) low = 0x8000 ->
      fst (read_i2c_word self register w) = Ok (-32768))
  /\ (Z.lor (Z.shiftl high 8) low = 0xFFFF ->
      fst (read_i2c_word self register w) = Ok (-1)).
Proof.
  intros Hh Hl Hhi Hlo.
  rewrite (read_i2c_word_ok _ _ _ _ _ Hhi Hlo), raw_word_signExtend by lia.
  cbn [fst]. unfold signExtend.
  repeat split; intros; try (f_equal; destruct (Z.ltb_spec (Z.lor (Z.shiftl high 8) low) 0x8000); lia).
Qed.

Lemma read_i2c_word_twos_complement_witness :
  fst (read_i2c_word (Self 0x68) ACCEL_YOUT0 sample_device) = Ok (-16384).
Proof.
  apply (proj1 (read_i2c_word_twos_complement
                  (Self 0x68) ACCEL_YOUT0 0xC0 0x00 sample_device
                  ltac:(lia) ltac:(lia) eq_refl eq_refl)).
Defined.

(** ** Range and scale resolver *)

Lemma set_accel_range_ok (self : self_t) (w : world) (b accelRange : Z) :
  holds w (address self) ACCEL_CONFIG b ->
  set_accel_range self accelRange w =
    (Ok PyNone,
     World (<[(address self, ACCEL_CONFIG) := accelRange]> (bus_mem w))
           (bus_log w ++ [BusWrite (address self) ACCEL_CONFIG 0x00;
                          BusWrite (address self) ACCEL_CONFIG accelRange])
           (stdout w)).
Proof.
  intros H. unfold set_accel_range.
  rewrite (bind_ok _ _ _ _ _ (write_byte_data_ok _ _ _ _ 0x00 H)).
  erewrite bind_ok by (apply write_byte_data_ok with (b := 0x00); apply lookup_insert_eq).
  unfold ret. cbn [bus_mem bus_log stdout].
  rewrite insert_insert_eq, <- app_assoc. reflexivity.
Qed.

Lemma set_gyro_range_ok (self : self_t) (w : world) (b gyroRange : Z) :
  holds w (address self) GYRO_CONFIG b ->
  set_gyro_range self gyroRange w =
    (Ok PyNone,
     World (<[(address self, GYRO_CONFIG) := gyroRange]> (bus_mem w))
           (bus_log w ++ [BusWrite (address self) GYRO_CONFIG 0x00;
                          BusWrite (address self) GYRO_CONFIG gyroRange])
           (stdout w)).
Proof.
  intros H. unfold set_gyro_range.
  rewrite (bind_ok _ _ _ _ _ (write_byte_data_ok _ _ _ _ 0x00 H)).
  erewrite bind_ok by (apply write_byte_data_ok with (b := 0x00); apply lookup_insert_eq).
  unfold ret. cbn [bus_mem bus_log stdout].
  rewrite insert_insert_eq, <- app_assoc. reflexivity.
Qed.

Lemma read_accel_range_raw (self : self_t) (w : world) (b : Z) :
  holds w (address self) ACCEL_CONFIG b ->
  read_accel_range self (PyBool true) w =
    (Ok (PyInt b), logged [BusRead (address self) ACCEL_CONFIG] w).
Proof.
  intros H. unfold read_accel_range.
  rewrite (bind_ok _ _ _ _ _ (read_byte_data_ok _ _ _ _ H)). reflexivity.
Qed.

Lemma read_gyro_range_raw (self : self_t) (w : world) (b : Z) :
  holds w (address self) GYRO_CONFIG b ->
  read_gyro_range self (PyBool true) w =
    (Ok (PyInt b), logged [BusRead (address self) GYRO_CONFIG] w).
Proof.
  intros H. unfold read_gyro_range.
  rewrite (bind_ok _ _ _ _ _ (read_byte_data_ok _ _ _ _ H)). reflexivity.
Qed.

(** C6: whatever byte the configuration register holds,
    [read_accel_range(False)] returns 2, 4, 8 or 16 for the four known
    encodings and -1 for any other byte, and raises nothing;
    [read_gyro_range(False)] likewise returns 250, 500, 1000, 2000 or -1. *)
Theorem read_range_total (self : self_t) (w : world) (b c : Z) :
  holds w (address self) ACCEL_CONFIG b ->
  holds w (address self) GYRO_CONFIG c ->
  ((b = ACCEL_RANGE_2G /\ fst (read_accel_range self (PyBool false) w) = Ok (PyInt 2))
   \/ (b = ACCEL_RANGE_4G /\ fst (read_accel_range self (PyBool false) w) = Ok (PyInt 4))
   \/ (b = ACCEL_RANGE_8G /\ fst (read_accel_range self (PyBool false) w) = Ok (PyInt 8))
   \/ (b = ACCEL_RANGE_16G /\ fst (read_accel_range self (PyBool false) w) = Ok (PyInt 16))
   \/ (~ In b [ACCEL_RANGE_2G; ACCEL_RANGE_4G; ACCEL_RANGE_8G; ACCEL_RANGE_16G]
       /\ fst (read_accel_range self (PyBool false) w) = Ok (PyInt (-1))))
  /\
  ((c = GYRO_RANGE_250DEG /\ fst (read_gyro_range self (PyBool false) w) = Ok (PyInt 250))
   \/ (c = GYRO_RANGE_500DEG /\ fst (read_gyro_range self (PyBool false) w) = Ok (PyInt 500))
   \/ (c = GYRO_RANGE_1000DEG /\ fst (read_gyro_range self (PyBool false) w) = Ok (PyInt 1000))
   \/ (c = GYRO_RANGE_2000DEG /\ fst (read_gyro_range self (PyBool false) w) = Ok (PyInt 2000))
   \/ (~ In c [GYRO_RANGE_250DEG; GYRO_RANGE_500DEG; GYRO_RANGE_1000DEG; GYRO_RANGE_2000DEG]
       /\ fst (read_gyro_range self (PyBool false) w) = Ok (PyInt (-1)))).
Proof.
  intros Hb Hc. split.
  - unfold read_accel_range.
    rewrite (bind_ok _ _ _ _ _ (read_byte_data_ok _ _ _ _ Hb)).
    cbn [is_True is_False].
    destruct (Z.eqb_spec b ACCEL_RANGE_2G) as [? | N1]; [left; split; trivial |].
    destruct (Z.eqb_spec b ACCEL_RANGE_4G) as [? | N2]; [right; left; split; trivial |].
    destruct (Z.eqb_spec b ACCEL_RANGE_8G) as [? | N3];
      [right; right; left; split; trivial |].
    destruct (Z.eqb_spec b ACCEL_RANGE_16G) as [? | N4];
      [right; right; right; left; split; trivial |].
    right; right; right; right. split; [| reflexivity].
    cbn [In]. intuition congruence.
  - unfold read_gyro_range.
    rewrite (bind_ok _ _ _ _ _ (read_byte_data_ok _ _ _ _ Hc)).
    cbn [is_True is_False].
    destruct (Z.eqb_spec c GYRO_RANGE_250DEG) as [? | N1]; [left; split; trivial |].
    destruct (Z.eqb_spec c GYRO_RANGE_500DEG) as [? | N2]; [right; left; split; trivial |].
    destruct (Z.eqb_spec c GYRO_RANGE_1000DEG) as [? | N3];
      [right; right; left; split; trivial |].
    destruct (Z.eqb_spec c GYRO_RANGE_2000DEG) as [? | N4];
      [right; right; right; left; split; trivial |].
    right; right; right; right. split; [| reflexivity].
    cbn [In]. intuition congruence.
Qed.

Lemma read_range_total_witness :
  ((0x10 = ACCEL_RANGE_2G
    /\ fst (read_accel_range (Self 0x68) (PyBool false)
              (with_register ACCEL_CONFIG 0x10 sample_device)) = Ok (PyInt 2))
   \/ (0x10 = ACCEL_RANGE_4G
    /\ fst (read_accel_range (Self 0x68) (PyBool false)
              (with_register ACCEL_CONFIG 0x10 sample_device)) = Ok (PyInt 4))
   \/ (0x10 = ACCEL_RANGE_8G
    /\ fst (read_accel_range (Self 0x68) (PyBool false)
              (with_register ACCEL_CONFIG 0x10 sample_device)) = Ok (PyInt 8))
   \/ (0x10 = ACCEL_RANGE_16G
    /\ fst (read_accel_range (Self 0x68) (PyBool false)
              (with_register ACCEL_CONFIG 0x10 sample_device)) = Ok (PyInt 16))
   \/ (~ In 0x10 [ACCEL_RANGE_2G; ACCEL_RANGE_4G; ACCEL_RANGE_8G; ACCEL_RANGE_16G]
    /\ fst (read_accel_range (Self 0x68) (PyBool false)
              (with_register ACCEL_CONFIG 0x10 sample_device)) = Ok (PyInt (-1)))).
Proof.
  apply (proj1 (read_range_total (Self 0x68)
                  (with_register ACCEL_CONFIG 0x10 sample_device) 0x10 0x00
                  eq_refl eq_refl)).
Defined.

(** C8: for each of the four defined ranges [R], [set_accel_range(R)]
    followed by [read_accel_range(True)], with nothing in between, returns
    exactly the byte encoding [R]. *)
Theorem set_then_read_accel_range (self : self_t) (w : world) (b R : Z) :
  In R [ACCEL_RANGE_2G; ACCEL_RANGE_4G; ACCEL_RANGE_8G; ACCEL_RANGE_16G] ->
  holds w (address self) ACCEL_CONFIG b ->
  fst ((set_accel_range self R ;;; read_accel_range self (PyBool true)) w)
    = Ok (PyInt R).
Proof.
  intros _ Hb.
  rewrite (bind_ok _ _ _ _ _ (set_accel_range_ok _ _ _ R Hb)).
  erewrite read_accel_range_raw by apply lookup_insert_eq.
  reflexivity.
Qed.

Lemma set_then_read_accel_range_witness :
  fst ((set_accel_range (Self 0x68) ACCEL_RANGE_16G ;;;
        read_accel_range (Self 0x68) (PyBool true)) sample_device)
    = Ok (PyInt 0x18).
Proof.
  apply (set_then_read_accel_range (Self 0x68) sample_device 0x00 ACCEL_RANGE_16G).
  - right; right; right; left; reflexivity.
  - reflexivity.
Defined.

(** C9: on a device that answers, [set_accel_range] puts exactly two writes
    on the bus, both to the accelerometer's configuration register: 0x00
    first, the requested encoding second.  The register ends with the
    requested encoding and no other register changes; nothing is printed.
    [set_gyro_range] does the same on the gyroscope's configuration
    register. *)
Theorem set_range_two_writes (self : self_t) (w : world) (b c R : Z) :
  holds w (address self) ACCEL_CONFIG b ->
  holds w (address self) GYRO_CONFIG c ->
  (traffic (set_accel_range self R) w
     = [BusWrite (address self) ACCEL_CONFIG 0x00;
        BusWrite (address self) ACCEL_CONFIG R]
   /\ bus_mem (snd (set_accel_range self R w)) !! (address self, ACCEL_CONFIG) = Some R
   /\ (forall k, k <> (address self, ACCEL_CONFIG) ->
                 bus_mem (snd (set_accel_range self R w)) !! k = bus_mem w !! k)
   /\ stdout (snd (set_accel_range self R w)) = stdout w)
  /\
  (traffic (set_gyro_range self R) w
     = [BusWrite (address self) GYRO_CONFIG 0x00;
        BusWrite (address self) GYRO_CONFIG R]
   /\ bus_mem (snd (set_gyro_range self R w)) !! (address self, GYRO_CONFIG) = Some R
   /\ (forall k, k <> (address self, GYRO_CONFIG) ->
                 bus_mem (snd (set_gyro_range self R w)) !! k = bus_mem w !! k)
   /\ stdout (snd (set_gyro_range self R w)) = stdout w).
Proof.
  intros Hb Hc. split.
  - pose proof (set_accel_range_ok self w b R Hb) as E.
    split; [eapply traffic_logged; [exact E | reflexivity] |].
    rewrite E. cbn [snd bus_mem stdout].
    split; [apply lookup_insert_eq |].
    split; [| reflexivity].
    intros k Hk. apply lookup_insert_ne. congruence.
  - pose proof (set_gyro_range_ok self w c R Hc) as E.
    split; [eapply traffic_logged; [exact E | reflexivity] |].
    rewrite E. cbn [snd bus_mem stdout].
    split; [apply lookup_insert_eq |].
    split; [| reflexivity].
    intros k Hk. apply lookup_insert_ne. congruence.
Qed.

Lemma set_range_two_writes_witness :
  traffic (set_accel_range (Self 0x68) ACCEL_RANGE_8G) sample_device
    = [BusWrite 0x68 ACCEL_CONFIG 0x00; BusWrite 0x68 ACCEL_CONFIG 0x10]
  /\ traffic (set_gyro_range (Self 0x68) GYRO_RANGE_500DEG) sample_device
    = [BusWrite 0x68 GYRO_CONFIG 0x00; BusWrite 0x68 GYRO_CONFIG 0x08].
Proof.
  split.
  - apply (proj1 (proj1 (set_range_two_writes (Self 0x68) sample_device
                           0x00 0x00 ACCEL_RANGE_8G eq_refl eq_refl))).
  - apply (proj1 (proj2 (set_range_two_writes (Self 0x68) sample_device
                           0x00 0x00 GYRO_RANGE_500DEG eq_refl eq_refl))).
Defined.

(** ** Measurements *)

Lemma read_i2c_word_shows (self : self_t) (w : world) (register raw : Z) :
  shows w (address self) register raw ->
  read_i2c_word self register w =
    (Ok raw,
     logged [BusRead (address self) register;
             BusRead (address self) (register + 1)] w).
Proof.
  intros (Hr & Hh & Hl).
  rewrite (read_i2c_word_ok _ _ _ _ _ Hh Hl), raw_word_bytes by exact Hr.
  reflexivity.
Qed.

Lemma shows_logged (ops : list bus_op) (w : world) (addr reg raw : Z) :
  shows w addr reg raw -> shows (logged ops w) addr reg raw.
Proof. exact (fun H => H). Qed.

Lemma get_accel_data_ok (self : self_t) (w : world) (g : pyval) (cfg x y z : Z) :
  shows w (address self) ACCEL_XOUT0 x ->
  shows w (address self) ACCEL_YOUT0 y ->
  shows w (address self) ACCEL_ZOUT0 z ->
  holds w (address self) ACCEL_CONFIG cfg ->
  get_accel_data self g w =
    (Ok (let m := default ACCEL_SCALE_MODIFIER_2G (scale_of accel_scale_table cfg) in
         if is_True g then
           xyz (int_div_float x m) (int_div_float y m) (int_div_float z m)
         else if is_False g then
           xyz (PrimFloat.mul (int_div_float x m) GRAVITIY_MS2)
               (PrimFloat.mul (int_div_float y m) GRAVITIY_MS2)
               (PrimFloat.mul (int_div_float z m) GRAVITIY_MS2)
         else PyNone),
     printed (match scale_of accel_scale_table cfg with
              | Some _ => []
              | None => [accel_warning]
              end)
             (logged (measurement_reads (address self) ACCEL_XOUT0 ACCEL_CONFIG) w)).
Proof.
  intros Hx Hy Hz Hc. unfold get_accel_data.
  rewrite (bind_ok _ _ _ _ _ (read_i2c_word_shows _ _ _ _ Hx)).
  rewrite (bind_ok _ _ _ _ _ (read_i2c_word_shows _ _ _ _ (shows_logged _ _ _ _ _ Hy))).
  rewrite logged_logged.
  rewrite (bind_ok _ _ _ _ _ (read_i2c_word_shows _ _ _ _ (shows_logged _ _ _ _ _ Hz))).
  rewrite logged_logged.
  rewrite (bind_ok _ _ _ _ _ (read_accel_range_raw _ _ _ (holds_logged _ _ _ _ _ Hc))).
  rewrite logged_logged.
  unfold scale_of, accel_scale_table. cbn [py_eq_int find fst snd app].
  change (measurement_reads (address self) ACCEL_XOUT0 ACCEL_CONFIG) with
    [BusRead (address self) ACCEL_XOUT0; BusRead (address self) (ACCEL_XOUT0 + 1);
     BusRead (address self) ACCEL_YOUT0; BusRead (address self) (ACCEL_YOUT0 + 1);
     BusRead (address self) ACCEL_ZOUT0; BusRead (address self) (ACCEL_ZOUT0 + 1);
     BusRead (address self) ACCEL_CONFIG].
  destruct (cfg =? ACCEL_RANGE_2G);
    [| destruct (cfg =? ACCEL_RANGE_4G);
       [| destruct (cfg =? ACCEL_RANGE_8G);
          [| destruct (cfg =? ACCEL_RANGE_16G)]]];
    destruct g as [| [|] | | | | | |]; unfold printed, logged, bind, ret, print;
    cbn [option_map default snd is_True is_False bus_mem bus_log stdout];
    rewrite ?app_nil_r; reflexivity.
Qed.

Lemma get_gyro_data_ok (self : self_t) (w : world) (cfg x y z : Z) :
  shows w (address self) GYRO_XOUT0 x ->
  shows w (address self) GYRO_YOUT0 y ->
  shows w (address self) GYRO_ZOUT0 z ->
  holds w (address self) GYRO_CONFIG cfg ->
  get_gyro_data self w =
    (Ok (let m := default GYRO_SCALE_MODIFIER_250DEG (scale_of gyro_scale_table cfg) in
         xyz (int_div_float x m) (int_div_float y m) (int_div_float z m)),
     printed (match scale_of gyro_scale_table cfg with
              | Some _ => []
              | None => [gyro_warning]
              end)
             (logged (measurement_reads (address self) GYRO_XOUT0 GYRO_CONFIG) w)).
Proof.
  intros Hx Hy Hz Hc. unfold get_gyro_data.
  rewrite (bind_ok _ _ _ _ _ (read_i2c_word_shows _ _ _ _ Hx)).
  rewrite (bind_ok _ _ _ _ _ (read_i2c_word_shows _ _ _ _ (shows_logged _ _ _ _ _ Hy))).
  rewrite logged_logged.
  rewrite (bind_ok _ _ _ _ _ (read_i2c_word_shows _ _ _ _ (shows_logged _ _ _ _ _ Hz))).
  rewrite logged_logged.
  rewrite (bind_ok _ _ _ _ _ (read_gyro_range_raw _ _ _ (holds_logged _ _ _ _ _ Hc))).
  rewrite logged_logged.
  unfold scale_of, gyro_scale_table. cbn [py_eq_int find fst snd app].
  change (measurement_reads (address self) GYRO_XOUT0 GYRO_CONFIG) with
    [BusRead (address self) GYRO_XOUT0; BusRead (address self) (GYRO_XOUT0 + 1);
     BusRead (address self) GYRO_YOUT0; BusRead (address self) (GYRO_YOUT0 + 1);
     BusRead (address self) GYRO_ZOUT0; BusRead (address self) (GYRO_ZOUT0 + 1);
     BusRead (address self) GYRO_CONFIG].
  destruct (cfg =? GYRO_RANGE_250DEG);
    [| destruct (cfg =? GYRO_RANGE_500DEG);
       [| destruct (cfg =? GYRO_RANGE_1000DEG);
          [| destruct (cfg =? GYRO_RANGE_2000DEG)]]];
    unfold printed, logged, bind, ret, print;
    cbn [option_map default snd bus_mem bus_log stdout];
    rewrite ?app_nil_r; reflexivity.
Qed.

Lemma get_temp_ok (self : self_t) (w : world) (raw : Z) :
  shows w (address self) TEMP_OUT0 raw ->
  get_temp self w =
    (Ok (PyFloat (PrimFloat.add (int_truediv raw 340) 36.53%float)),
     logged [BusRead (address self) TEMP_OUT0;
             BusRead (address self) (TEMP_OUT0 + 1)] w).
Proof.
  intros H. unfold get_temp.
  rewrite (bind_ok _ _ _ _ _ (read_i2c_word_shows _ _ _ _ H)). reflexivity.
Qed.

Lemma scale_of_table (table : list (Z * float)) (cfg : Z) (m : float) :
  NoDup (map fst table) -> In (cfg, m) table -> scale_of table cfg = Some m.
Proof.
  unfold scale_of. induction table as [| [c m'] table IH]; intros Hnd Hin.
  - destruct Hin.
  - cbn [map fst] in Hnd. inversion Hnd as [| ? ? Hfresh Hnd']; subst.
    cbn [find fst]. destruct Hin as [E | Hin].
    + inversion E; subst. rewrite Z.eqb_refl. reflexivity.
    + destruct (Z.eqb_spec cfg c) as [-> | _]; [| apply IH; assumption].
      exfalso. apply Hfresh. apply list_elem_of_In.
      change c with (fst (c, m)). apply in_map. exact Hin.
Qed.

Lemma scale_of_unknown (table : list (Z * float)) (cfg : Z) :
  ~ In cfg (map fst table) -> scale_of table cfg = None.
Proof.
  unfold scale_of. induction table as [| [c m'] table IH]; intros Hout.
  - reflexivity.
  - cbn [map fst In] in Hout. cbn [find fst].
    destruct (Z.eqb_spec cfg c) as [-> | _]; [tauto |].
    apply IH. tauto.
Qed.

Lemma accel_table_nodup : NoDup (map fst accel_scale_table).
Proof. apply (bool_decide_unpack _). vm_compute. exact I. Qed.

Lemma gyro_table_nodup : NoDup (map fst gyro_scale_table).
Proof. apply (bool_decide_unpack _). vm_compute. exact I. Qed.

(** C3: for every signed 16-bit sample [raw] in the temperature registers,
    [get_temp] returns [raw / 340 + 36.53] in binary64, the quotient being
    the float quotient and not the truncated one: sample 0 gives exactly
    36.53, sample 340 exactly 37.53, and sample 170 gives 37.03 rather than
    the 36.53 a truncating division would give. *)
Theorem get_temp_formula (self : self_t) (w : world) (raw : Z) :
  shows w (address self) TEMP_OUT0 raw ->
  fst (get_temp self w)
    = Ok (PyFloat (PrimFloat.add
                     (PrimFloat.div (float_of_int raw) 340%float) 36.53%float))
  /\ (raw = 0 -> fst (get_temp self w) = Ok (PyFloat 36.53%float))
  /\ (raw = 340 -> fst (get_temp self w) = Ok (PyFloat 37.53%float))
  /\ (raw = 170 -> fst (get_temp self w) = Ok (PyFloat 37.03%float)).
Proof.
  intros H. rewrite (get_temp_ok _ _ _ H). cbn [fst].
  repeat split; intros; subst; vm_compute; reflexivity.
Qed.

Lemma get_temp_formula_witness :
  fst (get_temp (Self 0x68) sample_device) = Ok (PyFloat 37.53%float).
Proof.
  refine (proj1 (proj2 (proj2 (get_temp_formula (Self 0x68) sample_device 340 _))) eq_refl).
  split; [lia | split; reflexivity].
Defined.

(** C4: with [m] the scale modifier resolved from the range byte [cfg],
    [get_accel_data] divides each raw axis sample by [m]; with [g = True] it
    returns the quotients as they are, with [g = False] each multiplied by
    9.80665, always in the order x, y, z.  Raw axes (16384, -16384, 0) under
    the 2g range give (1.0, -1.0, 0.0) in g and (9.80665, -9.80665, 0.0) in
    m/s^2. *)
Theorem get_accel_data_scaled
        (self : self_t) (w : world) (cfg : Z) (m : float) (x y z : Z) :
  resolved accel_scale_table ACCEL_SCALE_MODIFIER_2G cfg m ->
  shows w (address self) ACCEL_XOUT0 x ->
  shows w (address self) ACCEL_YOUT0 y ->
  shows w (address self) ACCEL_ZOUT0 z ->
  holds w (address self) ACCEL_CONFIG cfg ->
  fst (get_accel_data self (PyBool true) w)
    = Ok (PyDict [("x", PyFloat (PrimFloat.div (float_of_int x) m));
                  ("y", PyFloat (PrimFloat.div (float_of_int y) m));
                  ("z", PyFloat (PrimFloat.div (float_of_int z) m))])
  /\ fst (get_accel_data self (PyBool false) w)
    = Ok (PyDict
            [("x", PyFloat (PrimFloat.mul (PrimFloat.div (float_of_int x) m) 9.80665%float));
             ("y", PyFloat (PrimFloat.mul (PrimFloat.div (float_of_int y) m) 9.80665%float));
             ("z", PyFloat (PrimFloat.mul (PrimFloat.div (float_of_int z) m) 9.80665%float))])
  /\ (cfg = ACCEL_RANGE_2G -> x = 16384 -> y = -16384 -> z = 0 ->
      fst (get_accel_data self (PyBool true) w)
        = Ok (PyDict [("x", PyFloat 1.0%float); ("y", PyFloat (-1.0)%float);
                      ("z", PyFloat 0.0%float)])
      /\ fst (get_accel_data self (PyBool false) w)
        = Ok (PyDict [("x", PyFloat 9.80665%float); ("y", PyFloat (-9.80665)%float);
                      ("z", PyFloat 0.0%float)])).
Proof.
  intros Hm Hx Hy Hz Hc.
  rewrite !(get_accel_data_ok _ _ _ _ _ _ _ Hx Hy Hz Hc).
  assert (E : default ACCEL_SCALE_MODIFIER_2G (scale_of accel_scale_table cfg) = m).
  { destruct Hm as [Hin | [Hout ->]].
    - rewrite (scale_of_table _ _ _ accel_table_nodup Hin). reflexivity.
    - rewrite (scale_of_unknown _ _ Hout). reflexivity. }
  cbv zeta. rewrite E. cbn [fst is_True is_False].
  split; [reflexivity | split; [reflexivity |]].
  intros -> -> -> ->. vm_compute in E. subst m.
  split; vm_compute; reflexivity.
Qed.

Lemma get_accel_data_scaled_witness :
  fst (get_accel_data (Self 0x68) (PyBool true) sample_device)
    = Ok (PyDict [("x", PyFloat 1.0%float); ("y", PyFloat (-1.0)%float);
                  ("z", PyFloat 0.0%float)])
  /\ fst (get_accel_data (Self 0x68) (PyBool false) sample_device)
    = Ok (PyDict [("x", PyFloat 9.80665%float); ("y", PyFloat (-9.80665)%float);
                  ("z", PyFloat 0.0%float)]).
Proof.
  refine (proj2 (proj2 (get_accel_data_scaled (Self 0x68) sample_device
                          ACCEL_RANGE_2G ACCEL_SCALE_MODIFIER_2G 16384 (-16384) 0
                          _ _ _ _ eq_refl))
                eq_refl eq_refl eq_refl eq_refl).
  - left; left; reflexivity.
  - split; [lia | split; reflexivity].
  - split; [lia | split; reflexivity].
  - split; [lia | split; reflexivity].
Defined.

(** The claim of C5 fails on the sample device: the first transaction of an
    acceleration call, and of an angular-rate call, is the read of the X
    output register, not of the range configuration register. *)
Lemma range_read_is_not_first :
  ~ range_read_first 0x68 ACCEL_CONFIG
      (traffic (get_accel_data (Self 0x68) (PyBool false)) sample_device)
  /\ ~ range_read_first 0x68 GYRO_CONFIG
      (traffic (get_gyro_data (Self 0x68)) sample_device).
Proof.
  split; intros H; vm_compute in H; discriminate H.
Qed.

Lemma resolved_default (table : list (Z * float)) (fallback : float)
      (cfg : Z) (m : float) :
  NoDup (map fst table) -> resolved table fallback cfg m ->
  default fallback (scale_of table cfg) = m.
Proof.
  intros Hnd [Hin | [Hout ->]].
  - rewrite (scale_of_table _ _ _ Hnd Hin). reflexivity.
  - rewrite (scale_of_unknown _ _ Hout). reflexivity.
Qed.

(** C5, amended: every acceleration and angular-rate call reads the six
    sample registers first (X high, X low, Y high, Y low, Z high, Z low) and
    the range configuration register after them, once, as the seventh and
    last transaction; the scale constant is resolved from that byte, and
    what the call returns is the samples read before it divided by that
    constant (for acceleration in m/s^2, times 9.80665). *)
Theorem measurement_reads_range_last (self : self_t) (w : world) :
  (forall (acfg : Z) (ma : float) (ax ay az : Z),
      resolved accel_scale_table ACCEL_SCALE_MODIFIER_2G acfg ma ->
      shows w (address self) ACCEL_XOUT0 ax ->
      shows w (address self) ACCEL_YOUT0 ay ->
      shows w (address self) ACCEL_ZOUT0 az ->
      holds w (address self) ACCEL_CONFIG acfg ->
      (forall g : pyval,
          traffic (get_accel_data self g) w
            = [BusRead (address self) 0x3B; BusRead (address self) 0x3C;
               BusRead (address self) 0x3D; BusRead (address self) 0x3E;
               BusRead (address self) 0x3F; BusRead (address self) 0x40;
               BusRead (address self) ACCEL_CONFIG])
      /\ fst (get_accel_data self (PyBool true) w)
           = Ok (PyDict [("x", PyFloat (PrimFloat.div (float_of_int ax) ma));
                         ("y", PyFloat (PrimFloat.div (float_of_int ay) ma));
                         ("z", PyFloat (PrimFloat.div (float_of_int az) ma))])
      /\ fst (get_accel_data self (PyBool false) w)
           = Ok (PyDict
                   [("x", PyFloat (PrimFloat.mul (PrimFloat.div (float_of_int ax) ma)
                                                 9.80665%float));
                    ("y", PyFloat (PrimFloat.mul (PrimFloat.div (float_of_int ay) ma)
                                                 9.80665%float));
                    ("z", PyFloat (PrimFloat.mul (PrimFloat.div (float_of_int az) ma)
                                                 9.80665%float))]))
  /\
  (forall (gcfg : Z) (mg : float) (gx gy gz : Z),
      resolved gyro_scale_table GYRO_SCALE_MODIFIER_250DEG gcfg mg ->
      shows w (address self) GYRO_XOUT0 gx ->
      shows w (address self) GYRO_YOUT0 gy ->
      shows w (address self) GYRO_ZOUT0 gz ->
      holds w (address self) GYRO_CONFIG gcfg ->
      traffic (get_gyro_data self) w
        = [BusRead (address self) 0x43; BusRead (address self) 0x44;
           BusRead (address self) 0x45; BusRead (address self) 0x46;
           BusRead (address self) 0x47; BusRead (address self) 0x48;
           BusRead (address self) GYRO_CONFIG]
      /\ fst (get_gyro_data self w)
           = Ok (PyDict [("x", PyFloat (PrimFloat.div (float_of_int gx) mg));
                         ("y", PyFloat (PrimFloat.div (float_of_int gy) mg));
                         ("z", PyFloat (PrimFloat.div (float_of_int gz) mg))])).
Proof.
  split.
  - intros acfg ma ax ay az Hm Hx Hy Hz Hc.
    pose proof (resolved_default _ _ _ _ accel_table_nodup Hm) as E.
    split; [| split].
    + intros g. eapply traffic_logged;
        [exact (get_accel_data_ok _ _ g _ _ _ _ Hx Hy Hz Hc) | reflexivity].
    + rewrite (get_accel_data_ok _ _ _ _ _ _ _ Hx Hy Hz Hc).
      cbv zeta. rewrite E. reflexivity.
    + rewrite (get_accel_data_ok _ _ _ _ _ _ _ Hx Hy Hz Hc).
      cbv zeta. rewrite E. reflexivity.
  - intros gcfg mg gx gy gz Hm Hx Hy Hz Hc.
    pose proof (resolved_default _ _ _ _ gyro_table_nodup Hm) as E.
    split.
    + eapply traffic_logged;
        [exact (get_gyro_data_ok _ _ _ _ _ _ Hx Hy Hz Hc) | reflexivity].
    + rewrite (get_gyro_data_ok _ _ _ _ _ _ Hx Hy Hz Hc).
      cbv zeta. rewrite E. reflexivity.
Qed.

Lemma measurement_reads_range_last_witness :
  (traffic (get_accel_data (Self 0x68) (PyBool false)) sample_device
     = [BusRead 0x68 0x3B; BusRead 0x68 0x3C; BusRead 0x68 0x3D; BusRead 0x68 0x3E;
        BusRead 0x68 0x3F; BusRead 0x68 0x40; BusRead 0x68 ACCEL_CONFIG]
   /\ fst (get_accel_data (Self 0x68) (PyBool true) sample_device)
        = Ok (PyDict [("x", PyFloat 1.0%float); ("y", PyFloat (-1.0)%float);
                      ("z", PyFloat 0.0%float)]))
  /\ (traffic (get_gyro_data (Self 0x68)) sample_device
      = [BusRead 0x68 0x43; BusRead 0x68 0x44; BusRead 0x68 0x45; BusRead 0x68 0x46;
         BusRead 0x68 0x47; BusRead 0x68 0x48; BusRead 0x68 GYRO_CONFIG]
      /\ fst (get_gyro_data (Self 0x68) sample_device)
           = Ok (PyDict [("x", PyFloat 1.0%float); ("y", PyFloat (-1.0)%float);
                         ("z", PyFloat 0.0%float)])).
Proof.
  split.
  - refine (let H := proj1 (measurement_reads_range_last (Self 0x68) sample_device)
                       0x00 ACCEL_SCALE_MODIFIER_2G 16384 (-16384) 0 _ _ _ _ eq_refl in
            conj (proj1 H (PyBool false)) (proj1 (proj2 H)));
      try (split; [lia | split; reflexivity]).
    left; left; reflexivity.
  - refine (proj2 (measurement_reads_range_last (Self 0x68) sample_device)
              0x00 GYRO_SCALE_MODIFIER_250DEG 131 (-131) 0 _ _ _ _ eq_refl);
      try (split; [lia | split; reflexivity]).
    left; left; reflexivity.
Defined.

(** C7: when the configuration byte is none of the four known encodings,
    the acceleration call still returns: it scales with the modifier of the
    smallest range, 16384.0 for 2g, and prints one warning line, whatever
    the gyroscope's configuration; and the angular-rate call does the same
    with 131.0 for 250 deg/s, whatever the accelerometer's. *)
Theorem unknown_range_falls_back (self : self_t) (w : world) :
  (forall (g : bool) (acfg ax ay az : Z),
      ~ In acfg [ACCEL_RANGE_2G; ACCEL_RANGE_4G; ACCEL_RANGE_8G; ACCEL_RANGE_16G] ->
      shows w (address self) ACCEL_XOUT0 ax ->
      shows w (address self) ACCEL_YOUT0 ay ->
      shows w (address self) ACCEL_ZOUT0 az ->
      holds w (address self) ACCEL_CONFIG acfg ->
      fst (get_accel_data self (PyBool g) w)
        = Ok (let unit (v : float) := if g then v else PrimFloat.mul v 9.80665%float in
              PyDict
                [("x", PyFloat (unit (PrimFloat.div (float_of_int ax) 16384.0%float)));
                 ("y", PyFloat (unit (PrimFloat.div (float_of_int ay) 16384.0%float)));
                 ("z", PyFloat (unit (PrimFloat.div (float_of_int az) 16384.0%float)))])
      /\ stdout (snd (get_accel_data self (PyBool g) w)) = stdout w ++ [accel_warning])
  /\
  (forall (gcfg gx gy gz : Z),
      ~ In gcfg [GYRO_RANGE_250DEG; GYRO_RANGE_500DEG;
                 GYRO_RANGE_1000DEG; GYRO_RANGE_2000DEG] ->
      shows w (address self) GYRO_XOUT0 gx ->
      shows w (address self) GYRO_YOUT0 gy ->
      shows w (address self) GYRO_ZOUT0 gz ->
      holds w (address self) GYRO_CONFIG gcfg ->
      fst (get_gyro_data self w)
        = Ok (PyDict [("x", PyFloat (PrimFloat.div (float_of_int gx) 131.0%float));
                      ("y", PyFloat (PrimFloat.div (float_of_int gy) 131.0%float));
                      ("z", PyFloat (PrimFloat.div (float_of_int gz) 131.0%float))])
      /\ stdout (snd (get_gyro_data self w)) = stdout w ++ [gyro_warning]).
Proof.
  split.
  - intros g acfg ax ay az Ha Hax Hay Haz Hac.
    rewrite !(get_accel_data_ok _ _ _ _ _ _ _ Hax Hay Haz Hac).
    rewrite (scale_of_unknown accel_scale_table acfg) by exact Ha.
    cbn [fst snd default stdout printed logged].
    destruct g; split; reflexivity.
  - intros gcfg gx gy gz Hg Hgx Hgy Hgz Hgc.
    rewrite !(get_gyro_data_ok _ _ _ _ _ _ Hgx Hgy Hgz Hgc).
    rewrite (scale_of_unknown gyro_scale_table gcfg) by exact Hg.
    cbn [fst snd default stdout printed logged].
    split; reflexivity.
Qed.

Lemma unknown_range_falls_back_witness :
  (fst (get_accel_data (Self 0x68) (PyBool true)
          (with_register ACCEL_CONFIG 0x01 sample_device))
     = Ok (PyDict [("x", PyFloat 1.0%float); ("y", PyFloat (-1.0)%float);
                   ("z", PyFloat 0.0%float)])
   /\ stdout (snd (get_accel_data (Self 0x68) (PyBool true)
                     (with_register ACCEL_CONFIG 0x01 sample_device)))
        = [accel_warning])
  /\ (fst (get_gyro_data (Self 0x68) (with_register GYRO_CONFIG 0xE0 sample_device))
      = Ok (PyDict [("x", PyFloat 1.0%float); ("y", PyFloat (-1.0)%float);
                    ("z", PyFloat 0.0%float)])
      /\ stdout (snd (get_gyro_data (Self 0x68)
                        (with_register GYRO_CONFIG 0xE0 sample_device)))
           = [gyro_warning]).
Proof.
  split.
  - refine (proj1 (unknown_range_falls_back (Self 0x68)
                     (with_register ACCEL_CONFIG 0x01 sample_device))
              true 0x01 16384 (-16384) 0 _ _ _ _ eq_refl);
      try (split; [lia | split; reflexivity]).
    intros Hin; cbv in Hin; intuition discriminate.
  - refine (proj2 (unknown_range_falls_back (Self 0x68)
                     (with_register GYRO_CONFIG 0xE0 sample_device))
              0xE0 131 (-131) 0 _ _ _ _ eq_refl);
      try (split; [lia | split; reflexivity]).
    intros Hin; cbv in Hin; intuition discriminate.
Defined.

(** C10: a flag that is neither [True] nor [False] (the int 1, say) matches
    neither of the two identity tests, and [read_accel_range],
    [read_gyro_range] and [get_accel_data] then return [None], after their
    bus reads. *)
Theorem non_boolean_flag_returns_None
        (self : self_t) (w : world) (flag : pyval)
        (acfg ax ay az gcfg : Z) :
  (forall b : bool, flag <> PyBool b) ->
  shows w (address self) ACCEL_XOUT0 ax ->
  shows w (address self) ACCEL_YOUT0 ay ->
  shows w (address self) ACCEL_ZOUT0 az ->
  holds w (address self) ACCEL_CONFIG acfg ->
  holds w (address self) GYRO_CONFIG gcfg ->
  fst (get_accel_data self flag w) = Ok PyNone
  /\ fst (read_accel_range self flag w) = Ok PyNone
  /\ fst (read_gyro_range self flag w) = Ok PyNone.
Proof.
  intros Hflag Hax Hay Haz Hac Hgc.
  assert (Ht : is_True flag = false)
    by (destruct flag as [| [|] | | | | | |]; try reflexivity; now destruct (Hflag true)).
  assert (Hf : is_False flag = false)
    by (destruct flag as [| [|] | | | | | |]; try reflexivity; now destruct (Hflag false)).
  rewrite (get_accel_data_ok _ _ _ _ _ _ _ Hax Hay Haz Hac).
  unfold read_accel_range, read_gyro_range.
  rewrite (bind_ok _ _ _ _ _ (read_byte_data_ok _ _ _ _ Hac)).
  rewrite (bind_ok _ _ _ _ _ (read_byte_data_ok _ _ _ _ Hgc)).
  cbn [fst]. rewrite Ht, Hf. repeat split; reflexivity.
Qed.

Lemma non_boolean_flag_returns_None_witness :
  fst (get_accel_data (Self 0x68) (PyInt 1) sample_device) = Ok PyNone
  /\ fst (read_accel_range (Self 0x68) (PyInt 1) sample_device) = Ok PyNone
  /\ fst (read_gyro_range (Self 0x68) (PyInt 1) sample_device) = Ok PyNone.
Proof.
  apply (non_boolean_flag_returns_None (Self 0x68) sample_device (PyInt 1)
           0x00 16384 (-16384) 0 0x00).
  - intros b H. discriminate H.
  - split; [lia | split; reflexivity].
  - split; [lia | split; reflexivity].
  - split; [lia | split; reflexivity].
  - reflexivity.
  - reflexivity.
Defined.

(** C2 fails on the code: [get_all_data] calls [get_temp] as a global name,
    which nothing binds, so every call raises [NameError] at its first
    statement, with no bus traffic and no result, on a device whose three
    measurements all succeed when called on the instance. *)
Theorem get_all_data_raises_NameError (self : self_t) (w : world) :
  get_all_data self w = (Raise (NameError "get_temp"), w)
  /\ traffic (get_all_data self) w = []
  /\ fst (get_all_data (Self 0x68) sample_device) = Raise (NameError "get_temp")
  /\ fst (get_temp (Self 0x68) sample_device) = Ok (PyFloat 37.53%float)
  /\ fst (get_accel_data (Self 0x68) (PyBool false) sample_device)
       = Ok (PyDict [("x", PyFloat 9.80665%float); ("y", PyFloat (-9.80665)%float);
                     ("z", PyFloat 0.0%float)])
  /\ fst (get_gyro_data (Self 0x68) sample_device)
       = Ok (PyDict [("x", PyFloat 1.0%float); ("y", PyFloat (-1.0)%float);
                     ("z", PyFloat 0.0%float)]).
Proof.
  assert (E : get_all_data self w = (Raise (NameError "get_temp"), w)) by reflexivity.
  split; [exact E |].
  split; [eapply traffic_logged; [exact E | symmetry; apply app_nil_r] |].
  repeat split; vm_compute; reflexivity.
Qed.

(** ** Construction and bus errors *)

(** X1: on a device that answers, [__init__] puts one write on the bus,
    0x00 to PWR_MGMT_1, returns the instance with the address it was given,
    and leaves every other register, both range settings included, as it
    was. *)
Theorem init_wakes_only (addr b : Z) (w : world) :
  holds w addr PWR_MGMT_1 b ->
  fst (init addr w) = Ok (Self addr)
  /\ traffic (init addr) w = [BusWrite addr PWR_MGMT_1 0x00]
  /\ bus_mem (snd (init addr w)) !! (addr, PWR_MGMT_1) = Some 0x00
  /\ (forall k, k <> (addr, PWR_MGMT_1) ->
                bus_mem (snd (init addr w)) !! k = bus_mem w !! k)
  /\ stdout (snd (init addr w)) = stdout w.
Proof.
  intros Hb.
  assert (E : init addr w =
              (Ok (Self addr),
               World (<[(addr, PWR_MGMT_1) := 0x00]> (bus_mem w))
                     (bus_log w ++ [BusWrite addr PWR_MGMT_1 0x00]) (stdout w))).
  { unfold init. cbn [address].
    rewrite (bind_ok _ _ _ _ _ (write_byte_data_ok _ _ _ _ 0x00 Hb)). reflexivity. }
  split; [rewrite E; reflexivity |].
  split; [eapply traffic_logged; [exact E | reflexivity] |].
  rewrite E. cbn [snd bus_mem stdout].
  split; [apply lookup_insert_eq |].
  split; [| reflexivity].
  intros k Hk. apply lookup_insert_ne. congruence.
Qed.

Lemma init_wakes_only_witness :
  fst (init 0x68 sample_device) = Ok (Self 0x68)
  /\ traffic (init 0x68) sample_device = [BusWrite 0x68 PWR_MGMT_1 0x00].
Proof.
  refine (let H := init_wakes_only 0x68 0x40 sample_device eq_refl in
          conj (proj1 H) (proj1 (proj2 H))).
Defined.

(** X2: when the device does not answer, the constructor and both range
    setters raise [IOError] at their first write: the second write of a
    setter is never attempted, no register changes and no instance is
    returned. *)
Theorem silent_device_aborts_writes (self : self_t) (R : Z) (w : world) :
  bus_mem w !! (address self, PWR_MGMT_1) = None ->
  bus_mem w !! (address self, ACCEL_CONFIG) = None ->
  bus_mem w !! (address self, GYRO_CONFIG) = None ->
  init (address self) w
    = (Raise (IOError (address self) PWR_MGMT_1),
       logged [BusWrite (address self) PWR_MGMT_1 0x00] w)
  /\ set_accel_range self R w
    = (Raise (IOError (address self) ACCEL_CONFIG),
       logged [BusWrite (address self) ACCEL_CONFIG 0x00] w)
  /\ set_gyro_range self R w
    = (Raise (IOError (address self) GYRO_CONFIG),
       logged [BusWrite (address self) GYRO_CONFIG 0x00] w).
Proof.
  intros Hp Ha Hg.
  unfold init, set_accel_range, set_gyro_range, bind, write_byte_data.
  cbn [address]. rewrite Hp, Ha, Hg. repeat split; reflexivity.
Qed.

Lemma silent_device_aborts_writes_witness :
  set_accel_range (Self 0x69) ACCEL_RANGE_8G sample_device
    = (Raise (IOError 0x69 ACCEL_CONFIG),
       logged [BusWrite 0x69 ACCEL_CONFIG 0x00] sample_device).
Proof.
  refine (proj1 (proj2 (silent_device_aborts_writes (Self 0x69) ACCEL_RANGE_8G
                          sample_device eq_refl eq_refl eq_refl))).
Defined.

(** ** Reading never writes, and fails only on a silent register *)

Section BusReader.
Variable addr : Z.
Variable regs : list Z.

Lemma bus_reader_ret {A} (a : A) : bus_reader addr regs (ret a).
Proof. intros w. split; [reflexivity | intros e H; discriminate H]. Qed.

Lemma bus_reader_print (s : string) : bus_reader addr regs (print s).
Proof. intros w. split; [reflexivity | intros e H; discriminate H]. Qed.

Lemma bus_reader_read (reg : Z) :
  In reg regs -> bus_reader addr regs (read_byte_data addr reg).
Proof.
  intros Hin w. unfold read_byte_data.
  destruct (bus_mem w !! (addr, reg)) as [b |] eqn:E; cbn [fst snd bus_mem bus_log].
  - split; [reflexivity | intros e H; discriminate H].
  - split; [reflexivity |]. intros e H. injection H as <-.
    exists reg, (bus_log w). auto.
Qed.

Lemma bus_reader_bind {A B} (m : M A) (k : A -> M B) :
  bus_reader addr regs m -> (forall a, bus_reader addr regs (k a)) ->
  bus_reader addr regs (bind m k).
Proof.
  intros Hm Hk w. unfold bind.
  destruct (Hm w) as [Hmem Hraise].
  destruct (m w) as [[a | e'] w'] eqn:E; cbn [fst snd] in *.
  - destruct (Hk a w') as [Hmem' Hraise'].
    split; [congruence |].
    intros e He. destruct (Hraise' e He) as (reg & pre & Hin & -> & Hnone & Hlog).
    exists reg, pre. rewrite <- Hmem. auto.
  - split; [exact Hmem |]. intros e He. injection He as <-.
    apply Hraise. reflexivity.
Qed.

Lemma bus_reader_if {A} (c : bool) (m1 m2 : M A) :
  bus_reader addr regs m1 -> bus_reader addr regs m2 ->
  bus_reader addr regs (if c then m1 else m2).
Proof. destruct c; auto. Qed.
End BusReader.

Ltac bus_reader_steps :=
  repeat first
    [ apply bus_reader_ret
    | apply bus_reader_print
    | apply bus_reader_read; cbn [In]; tauto
    | apply bus_reader_if
    | apply bus_reader_bind; [| intros ?] ].

Lemma bus_reader_read_i2c_word (self : self_t) (regs : list Z) (register : Z) :
  In register regs -> In (register + 1) regs ->
  bus_reader (address self) regs (read_i2c_word self register).
Proof.
  intros H0 H1. unfold read_i2c_word.
  apply bus_reader_bind; [apply bus_reader_read; exact H0 | intros high].
  apply bus_reader_bind; [apply bus_reader_read; exact H1 | intros low].
  cbv zeta. bus_reader_steps.
Qed.

Lemma bus_reader_read_accel_range (self : self_t) (raw : pyval) :
  bus_reader (address self) accel_registers (read_accel_range self raw).
Proof. unfold read_accel_range, accel_registers. bus_reader_steps. Qed.

Lemma bus_reader_read_gyro_range (self : self_t) (raw : pyval) :
  bus_reader (address self) gyro_registers (read_gyro_range self raw).
Proof. unfold read_gyro_range, gyro_registers. bus_reader_steps. Qed.

Lemma bus_reader_get_temp (self : self_t) :
  bus_reader (address self) temp_registers (get_temp self).
Proof.
  unfold get_temp.
  apply bus_reader_bind;
    [apply bus_reader_read_i2c_word; cbn; tauto | intros; apply bus_reader_ret].
Qed.

Lemma bus_reader_get_accel_data (self : self_t) (g : pyval) :
  bus_reader (address self) accel_registers (get_accel_data self g).
Proof.
  unfold get_accel_data.
  apply bus_reader_bind; [apply bus_reader_read_i2c_word; cbn; tauto | intros x].
  apply bus_reader_bind; [apply bus_reader_read_i2c_word; cbn; tauto | intros y].
  apply bus_reader_bind; [apply bus_reader_read_i2c_word; cbn; tauto | intros z].
  apply bus_reader_bind; [apply bus_reader_read_accel_range | intros accelRange].
  apply bus_reader_bind; [bus_reader_steps | intros m].
  cbv zeta. bus_reader_steps.
Qed.

Lemma bus_reader_get_gyro_data (self : self_t) :
  bus_reader (address self) gyro_registers (get_gyro_data self).
Proof.
  unfold get_gyro_data.
  apply bus_reader_bind; [apply bus_reader_read_i2c_word; cbn; tauto | intros x].
  apply bus_reader_bind; [apply bus_reader_read_i2c_word; cbn; tauto | intros y].
  apply bus_reader_bind; [apply bus_reader_read_i2c_word; cbn; tauto | intros z].
  apply bus_reader_bind; [apply bus_reader_read_gyro_range | intros gyroRange].
  apply bus_reader_bind; [bus_reader_steps | intros m].
  cbv zeta. bus_reader_steps.
Qed.

Lemma reads_only_ret {A} (a : A) : reads_only (ret a).
Proof.
  intros w. split; [reflexivity |]. exists []. split; [| reflexivity].
  symmetry. apply app_nil_r.
Qed.

Lemma reads_only_print (s : string) : reads_only (print s).
Proof.
  intros w. split; [reflexivity |]. exists []. split; [| reflexivity].
  symmetry. apply app_nil_r.
Qed.

Lemma reads_only_read (addr reg : Z) : reads_only (read_byte_data addr reg).
Proof.
  intros w. unfold read_byte_data.
  destruct (bus_mem w !! (addr, reg)); cbn [snd bus_mem bus_log];
    (split; [reflexivity | exists [BusRead addr reg]; split; reflexivity]).
Qed.

Lemma reads_only_bind {A B} (m : M A) (k : A -> M B) :
  reads_only m -> (forall a, reads_only (k a)) -> reads_only (bind m k).
Proof.
  intros Hm Hk w. unfold bind.
  destruct (Hm w) as (Hmem & ops & Hlog & Hops).
  destruct (m w) as [[a | e] w'] eqn:E; cbn [fst snd] in *.
  - destruct (Hk a w') as (Hmem' & ops' & Hlog' & Hops').
    split; [congruence |].
    exists (ops ++ ops'). split.
    + rewrite Hlog', Hlog, app_assoc. reflexivity.
    + rewrite forallb_app, Hops, Hops'. reflexivity.
  - split; [exact Hmem |]. exists ops. auto.
Qed.

Lemma reads_only_if {A} (c : bool) (m1 m2 : M A) :
  reads_only m1 -> reads_only m2 -> reads_only (if c then m1 else m2).
Proof. destruct c; auto. Qed.

Ltac reads_only_steps :=
  repeat first
    [ apply reads_only_ret
    | apply reads_only_print
    | apply reads_only_read
    | apply reads_only_if
    | apply reads_only_bind; [| intros ?] ].

Lemma reads_only_read_i2c_word (self : self_t) (register : Z) :
  reads_only (read_i2c_word self register).
Proof. unfold read_i2c_word. cbv zeta. reads_only_steps. Qed.

Lemma reads_only_read_accel_range (self : self_t) (raw : pyval) :
  reads_only (read_accel_range self raw).
Proof. unfold read_accel_range. reads_only_steps. Qed.

Lemma reads_only_read_gyro_range (self : self_t) (raw : pyval) :
  reads_only (read_gyro_range self raw).
Proof. unfold read_gyro_range. reads_only_steps. Qed.

(** X3: no reading method writes: whatever the device holds or fails to
    answer, and whatever flag is passed, every transaction that [get_temp],
    [get_accel_data], [get_gyro_data], [read_accel_range],
    [read_gyro_range] and [read_i2c_word] put on the bus is a read, appended
    to the log, and every register is left as it was. *)
Theorem readers_change_no_register
        (self : self_t) (flag : pyval) (register : Z) (w : world) :
  (bus_mem (snd (get_temp self w)) = bus_mem w
   /\ exists ops, bus_log (snd (get_temp self w)) = bus_log w ++ ops
                  /\ forallb is_read ops = true)
  /\ (bus_mem (snd (get_accel_data self flag w)) = bus_mem w
      /\ exists ops, bus_log (snd (get_accel_data self flag w)) = bus_log w ++ ops
                     /\ forallb is_read ops = true)
  /\ (bus_mem (snd (get_gyro_data self w)) = bus_mem w
      /\ exists ops, bus_log (snd (get_gyro_data self w)) = bus_log w ++ ops
                     /\ forallb is_read ops = true)
  /\ (bus_mem (snd (read_accel_range self flag w)) = bus_mem w
      /\ exists ops, bus_log (snd (read_accel_range self flag w)) = bus_log w ++ ops
                     /\ forallb is_read ops = true)
  /\ (bus_mem (snd (read_gyro_range self flag w)) = bus_mem w
      /\ exists ops, bus_log (snd (read_gyro_range self flag w)) = bus_log w ++ ops
                     /\ forallb is_read ops = true)
  /\ (bus_mem (snd (read_i2c_word self register w)) = bus_mem w
      /\ exists ops, bus_log (snd (read_i2c_word self register w)) = bus_log w ++ ops
                     /\ forallb is_read ops = true).
Proof.
  assert (Htemp : reads_only (get_temp self)).
  { unfold get_temp.
    apply reads_only_bind; [apply reads_only_read_i2c_word | intros; apply reads_only_ret]. }
  assert (Haccel : reads_only (get_accel_data self flag)).
  { unfold get_accel_data.
    apply reads_only_bind; [apply reads_only_read_i2c_word | intros x].
    apply reads_only_bind; [apply reads_only_read_i2c_word | intros y].
    apply reads_only_bind; [apply reads_only_read_i2c_word | intros z].
    apply reads_only_bind; [apply reads_only_read_accel_range | intros accelRange].
    apply reads_only_bind; [reads_only_steps | intros m].
    cbv zeta. reads_only_steps. }
  assert (Hgyro : reads_only (get_gyro_data self)).
  { unfold get_gyro_data.
    apply reads_only_bind; [apply reads_only_read_i2c_word | intros x].
    apply reads_only_bind; [apply reads_only_read_i2c_word | intros y].
    apply reads_only_bind; [apply reads_only_read_i2c_word | intros z].
    apply reads_only_bind; [apply reads_only_read_gyro_range | intros gyroRange].
    apply reads_only_bind; [reads_only_steps | intros m].
    cbv zeta. reads_only_steps. }
  split; [exact (Htemp w) |].
  split; [exact (Haccel w) |].
  split; [exact (Hgyro w) |].
  split; [exact (reads_only_read_accel_range self flag w) |].
  split; [exact (reads_only_read_gyro_range self flag w) |].
  exact (reads_only_read_i2c_word self register w).
Qed.

(** X4: a measurement fails in one way only.  [get_accel_data] either
    returns, or raises the [IOError] of one of its seven registers that does
    not answer, the failed read being the last transaction of the call; the
    same holds of [get_gyro_data] with its seven registers and of [get_temp]
    with its two. *)
Theorem measurement_fails_only_on_silent_register
        (self : self_t) (g : pyval) (w : world) :
  ((exists v, fst (get_accel_data self g w) = Ok v)
   \/ exists reg pre,
        In reg accel_registers
        /\ fst (get_accel_data self g w) = Raise (IOError (address self) reg)
        /\ bus_mem w !! (address self, reg) = None
        /\ bus_log (snd (get_accel_data self g w))
             = pre ++ [BusRead (address self) reg])
  /\ ((exists v, fst (get_gyro_data self w) = Ok v)
      \/ exists reg pre,
           In reg gyro_registers
           /\ fst (get_gyro_data self w) = Raise (IOError (address self) reg)
           /\ bus_mem w !! (address self, reg) = None
           /\ bus_log (snd (get_gyro_data self w))
                = pre ++ [BusRead (address self) reg])
  /\ ((exists v, fst (get_temp self w) = Ok v)
      \/ exists reg pre,
           In reg temp_registers
           /\ fst (get_temp self w) = Raise (IOError (address self) reg)
           /\ bus_mem w !! (address self, reg) = None
           /\ bus_log (snd (get_temp self w))
                = pre ++ [BusRead (address self) reg]).
Proof.
  assert (classify : forall regs (m : M pyval),
             bus_reader (address self) regs m ->
             (exists v, fst (m w) = Ok v)
             \/ exists reg pre,
                  In reg regs /\ fst (m w) = Raise (IOError (address self) reg)
                  /\ bus_mem w !! (address self, reg) = None
                  /\ bus_log (snd (m w)) = pre ++ [BusRead (address self) reg]).
  { intros regs m Hm. destruct (Hm w) as [_ Hraise].
    destruct (fst (m w)) as [v | e] eqn:E; [left; eauto | right].
    destruct (Hraise e eq_refl) as (reg & pre & Hin & -> & Hnone & Hlog).
    exists reg, pre. auto. }
  split; [| split].
  - apply classify, bus_reader_get_accel_data.
  - apply classify, bus_reader_get_gyro_data.
  - apply classify, bus_reader_get_temp.
Qed.

(** ** Samples and their bytes *)

(** X5: [read_i2c_word] loses nothing: for bytes [high] and [low] in
    0..255 the sample it returns lies in -32768..32767 and its big-endian
    two's-complement bytes are [high] and [low] again, so different byte
    pairs are read as different samples. *)
Theorem read_i2c_word_keeps_bytes
        (self : self_t) (register high low : Z) (w : world) :
  0 <= high <= 255 -> 0 <= low <= 255 ->
  holds w (address self) register high ->
  holds w (address self) (register + 1) low ->
  exists raw,
    fst (read_i2c_word self register w) = Ok raw
    /\ -32768 <= raw <= 32767
    /\ high_byte raw = high /\ low_byte raw = low.
Proof.
  intros Hh Hl Hhi Hlo. exists (raw_word high low).
  rewrite (read_i2c_word_ok _ _ _ _ _ Hhi Hlo). split; [reflexivity |].
  unfold raw_word, high_byte, low_byte.
  rewrite Z.shiftl_mul_pow2 by lia. change (2 ^ 8) with 256. cbv zeta.
  assert (Hmod : forall v, v = high * 256 + low \/ v = high * 256 + low - 65536 ->
                           v mod 65536 = high * 256 + low /\ v mod 256 = low).
  { intros v Hv. split.
    - destruct Hv as [-> | ->].
      + apply Z.mod_small. lia.
      + symmetry. apply Z.mod_unique with (-1); lia.
    - destruct Hv as [-> | ->].
      + symmetry. apply Z.mod_unique with high; lia.
      + symmetry. apply Z.mod_unique with (high - 256); lia. }
  assert (Hdiv : (high * 256 + low) / 256 = high)
    by (symmetry; apply Z.div_unique with low; lia).
  destruct (Z.geb_spec (high * 256 + low) 0x8000).
  - destruct (Hmod (- (65535 - (high * 256 + low) + 1))) as [E1 E2]; [right; lia |].
    rewrite E1, E2, Hdiv. lia.
  - destruct (Hmod (high * 256 + low)) as [E1 E2]; [left; reflexivity |].
    rewrite E1, E2, Hdiv. lia.
Qed.

Lemma read_i2c_word_keeps_bytes_witness :
  exists raw,
    fst (read_i2c_word (Self 0x68) GYRO_YOUT0 sample_device) = Ok raw
    /\ -32768 <= raw <= 32767
    /\ high_byte raw = 0xFF /\ low_byte raw = 0x7D.
Proof.
  apply (read_i2c_word_keeps_bytes (Self 0x68) GYRO_YOUT0 0xFF 0x7D sample_device);
    [lia | lia | reflexivity | reflexivity].
Defined.

(** ** Angular rate *)

(** X6: with [m] the scale modifier resolved from the gyroscope's range
    byte, [get_gyro_data] returns each raw axis sample divided by [m], in
    the order x, y, z, always in degrees per second; raw axes (131, -131, 0)
    under the 250 deg/s range give (1.0, -1.0, 0.0). *)
Theorem get_gyro_data_scaled
        (self : self_t) (w : world) (cfg : Z) (m : float) (x y z : Z) :
  resolved gyro_scale_table GYRO_SCALE_MODIFIER_250DEG cfg m ->
  shows w (address self) GYRO_XOUT0 x ->
  shows w (address self) GYRO_YOUT0 y ->
  shows w (address self) GYRO_ZOUT0 z ->
  holds w (address self) GYRO_CONFIG cfg ->
  fst (get_gyro_data self w)
    = Ok (PyDict [("x", PyFloat (PrimFloat.div (float_of_int x) m));
                  ("y", PyFloat (PrimFloat.div (float_of_int y) m));
                  ("z", PyFloat (PrimFloat.div (float_of_int z) m))])
  /\ (cfg = GYRO_RANGE_250DEG -> x = 131 -> y = -131 -> z = 0 ->
      fst (get_gyro_data self w)
        = Ok (PyDict [("x", PyFloat 1.0%float); ("y", PyFloat (-1.0)%float);
                      ("z", PyFloat 0.0%float)])).
Proof.
  intros Hm Hx Hy Hz Hc.
  rewrite !(get_gyro_data_ok _ _ _ _ _ _ Hx Hy Hz Hc).
  assert (E : default GYRO_SCALE_MODIFIER_250DEG (scale_of gyro_scale_table cfg) = m).
  { destruct Hm as [Hin | [Hout ->]].
    - rewrite (scale_of_table _ _ _ gyro_table_nodup Hin). reflexivity.
    - rewrite (scale_of_unknown _ _ Hout). reflexivity. }
  cbv zeta. rewrite E. cbn [fst].
  split; [reflexivity |].
  intros -> -> -> ->. vm_compute in E. subst m. vm_compute. reflexivity.
Qed.

Lemma get_gyro_data_scaled_witness :
  fst (get_gyro_data (Self 0x68) sample_device)
    = Ok (PyDict [("x", PyFloat 1.0%float); ("y", PyFloat (-1.0)%float);
                  ("z", PyFloat 0.0%float)]).
Proof.
  refine (proj2 (get_gyro_data_scaled (Self 0x68) sample_device
                   GYRO_RANGE_250DEG GYRO_SCALE_MODIFIER_250DEG 131 (-131) 0
                   _ _ _ _ eq_refl)
                eq_refl eq_refl eq_refl eq_refl).
  - left; left; reflexivity.
  - split; [lia | split; reflexivity].
  - split; [lia | split; reflexivity].
  - split; [lia | split; reflexivity].
Defined.

(** ** Setting a range, then using it *)

Lemma read_accel_range_decoded (self : self_t) (w : world) (cfg n : Z) :
  In (cfg, n) accel_nominal ->
  holds w (address self) ACCEL_CONFIG cfg ->
  fst (read_accel_range self (PyBool false) w) = Ok (PyInt n).
Proof.
  intros Hin Hc. unfold read_accel_range.
  rewrite (bind_ok _ _ _ _ _ (read_byte_data_ok _ _ _ _ Hc)).
  cbn [is_True is_False].
  repeat (destruct Hin as [E | Hin]; [injection E as <- <-; reflexivity |]).
  destruct Hin.
Qed.

Lemma read_gyro_range_decoded (self : self_t) (w : world) (cfg n : Z) :
  In (cfg, n) gyro_nominal ->
  holds w (address self) GYRO_CONFIG cfg ->
  fst (read_gyro_range self (PyBool false) w) = Ok (PyInt n).
Proof.
  intros Hin Hc. unfold read_gyro_range.
  rewrite (bind_ok _ _ _ _ _ (read_byte_data_ok _ _ _ _ Hc)).
  cbn [is_True is_False].
  repeat (destruct Hin as [E | Hin]; [injection E as <- <-; reflexivity |]).
  destruct Hin.
Qed.

(** X7: a range that was set is the range that is read.  After
    [set_accel_range(R)] for one of the four encodings,
    [read_accel_range(False)] returns the matching 2, 4, 8 or 16; after
    [set_gyro_range(R)], [read_gyro_range(True)] returns [R] and
    [read_gyro_range(False)] the matching 250, 500, 1000 or 2000. *)
Theorem set_then_read_range
        (self : self_t) (w : world) (b c Ra na Rg ng : Z) :
  In (Ra, na) accel_nominal -> In (Rg, ng) gyro_nominal ->
  holds w (address self) ACCEL_CONFIG b ->
  holds w (address self) GYRO_CONFIG c ->
  fst ((set_accel_range self Ra ;;; read_accel_range self (PyBool false)) w)
    = Ok (PyInt na)
  /\ fst ((set_gyro_range self Rg ;;; read_gyro_range self (PyBool true)) w)
    = Ok (PyInt Rg)
  /\ fst ((set_gyro_range self Rg ;;; read_gyro_range self (PyBool false)) w)
    = Ok (PyInt ng).
Proof.
  intros Ha Hg Hb Hc.
  rewrite (bind_ok _ _ _ _ _ (set_accel_range_ok _ _ _ Ra Hb)).
  rewrite !(bind_ok _ _ _ _ _ (set_gyro_range_ok _ _ _ Rg Hc)).
  split; [| split].
  - apply read_accel_range_decoded with (cfg := Ra); [exact Ha | apply lookup_insert_eq].
  - erewrite read_gyro_range_raw by apply lookup_insert_eq. reflexivity.
  - apply read_gyro_range_decoded with (cfg := Rg); [exact Hg | apply lookup_insert_eq].
Qed.

Lemma set_then_read_range_witness :
  fst ((set_accel_range (Self 0x68) ACCEL_RANGE_8G ;;;
        read_accel_range (Self 0x68) (PyBool false)) sample_device) = Ok (PyInt 8)
  /\ fst ((set_gyro_range (Self 0x68) GYRO_RANGE_2000DEG ;;;
           read_gyro_range (Self 0x68) (PyBool true)) sample_device) = Ok (PyInt 0x18)
  /\ fst ((set_gyro_range (Self 0x68) GYRO_RANGE_2000DEG ;;;
           read_gyro_range (Self 0x68) (PyBool false)) sample_device) = Ok (PyInt 2000).
Proof.
  apply (set_then_read_range (Self 0x68) sample_device 0x00 0x00
           ACCEL_RANGE_8G 8 GYRO_RANGE_2000DEG 2000).
  - right; right; left; reflexivity.
  - right; right; right; left; reflexivity.
  - reflexivity.
  - reflexivity.
Defined.

Lemma shows_after_write (w : world) (addr reg config val raw : Z)
      (log : list bus_op) (out : list string) :
  reg <> config -> reg + 1 <> config ->
  shows w addr reg raw ->
  shows (World (<[(addr, config) := val]> (bus_mem w)) log out) addr reg raw.
Proof.
  intros N0 N1 (Hr & Hh & Hl). unfold shows, holds in *. cbn [bus_mem].
  rewrite !lookup_insert_ne by congruence. auto.
Qed.

(** X8: a measurement scales by the range set just before it, without any
    cached state.  [set_accel_range(R)] followed by [get_accel_data] divides
    the samples by the modifier resolved from [R] (and multiplies by
    9.80665 unless [g] is [True]); [set_gyro_range(R)] followed by
    [get_gyro_data] divides by the modifier resolved from [R]. *)
Theorem set_range_then_measure
        (self : self_t) (w : world) (g : bool)
        (b c Ra Rg : Z) (ma mg : float) (ax ay az gx gy gz : Z) :
  resolved accel_scale_table ACCEL_SCALE_MODIFIER_2G Ra ma ->
  resolved gyro_scale_table GYRO_SCALE_MODIFIER_250DEG Rg mg ->
  shows w (address self) ACCEL_XOUT0 ax ->
  shows w (address self) ACCEL_YOUT0 ay ->
  shows w (address self) ACCEL_ZOUT0 az ->
  holds w (address self) ACCEL_CONFIG b ->
  shows w (address self) GYRO_XOUT0 gx ->
  shows w (address self) GYRO_YOUT0 gy ->
  shows w (address self) GYRO_ZOUT0 gz ->
  holds w (address self) GYRO_CONFIG c ->
  fst ((set_accel_range self Ra ;;; get_accel_data self (PyBool g)) w)
    = Ok (let unit (v : float) := if g then v else PrimFloat.mul v 9.80665%float in
          PyDict [("x", PyFloat (unit (PrimFloat.div (float_of_int ax) ma)));
                  ("y", PyFloat (unit (PrimFloat.div (float_of_int ay) ma)));
                  ("z", PyFloat (unit (PrimFloat.div (float_of_int az) ma)))])
  /\ fst ((set_gyro_range self Rg ;;; get_gyro_data self) w)
    = Ok (PyDict [("x", PyFloat (PrimFloat.div (float_of_int gx) mg));
                  ("y", PyFloat (PrimFloat.div (float_of_int gy) mg));
                  ("z", PyFloat (PrimFloat.div (float_of_int gz) mg))]).
Proof.
  intros Hma Hmg Hax Hay Haz Hb Hgx Hgy Hgz Hc.
  assert (Ea : default ACCEL_SCALE_MODIFIER_2G (scale_of accel_scale_table Ra) = ma).
  { destruct Hma as [Hin | [Hout ->]].
    - rewrite (scale_of_table _ _ _ accel_table_nodup Hin). reflexivity.
    - rewrite (scale_of_unknown _ _ Hout). reflexivity. }
  assert (Eg : default GYRO_SCALE_MODIFIER_250DEG (scale_of gyro_scale_table Rg) = mg).
  { destruct Hmg as [Hin | [Hout ->]].
    - rewrite (scale_of_table _ _ _ gyro_table_nodup Hin). reflexivity.
    - rewrite (scale_of_unknown _ _ Hout). reflexivity. }
  rewrite (bind_ok _ _ _ _ _ (set_accel_range_ok _ _ _ Ra Hb)).
  rewrite (bind_ok _ _ _ _ _ (set_gyro_range_ok _ _ _ Rg Hc)).
  split.
  - erewrite get_accel_data_ok with (cfg := Ra);
      [| apply shows_after_write; [discriminate | discriminate | eassumption] ..
       | apply lookup_insert_eq].
    cbv zeta. rewrite Ea. destruct g; reflexivity.
  - erewrite get_gyro_data_ok with (cfg := Rg);
      [| apply shows_after_write; [discriminate | discriminate | eassumption] ..
       | apply lookup_insert_eq].
    cbv zeta. rewrite Eg. reflexivity.
Qed.

Lemma set_range_then_measure_witness :
  fst ((set_accel_range (Self 0x68) ACCEL_RANGE_4G ;;;
        get_accel_data (Self 0x68) (PyBool true)) sample_device)
    = Ok (PyDict [("x", PyFloat 2.0%float); ("y", PyFloat (-2.0)%float);
                  ("z", PyFloat 0.0%float)])
  /\ fst ((set_gyro_range (Self 0x68) GYRO_RANGE_500DEG ;;;
           get_gyro_data (Self 0x68)) sample_device)
    = Ok (PyDict [("x", PyFloat 2.0%float); ("y", PyFloat (-2.0)%float);
                  ("z", PyFloat 0.0%float)]).
Proof.
  refine (set_range_then_measure (Self 0x68) sample_device true 0x00 0x00
            ACCEL_RANGE_4G GYRO_RANGE_500DEG
            ACCEL_SCALE_MODIFIER_4G GYRO_SCALE_MODIFIER_500DEG
            16384 (-16384) 0 131 (-131) 0
            _ _ _ _ _ eq_refl _ _ _ eq_refl);
    try (split; [lia | split; reflexivity]);
    left; right; left; reflexivity.
Defined.

(** ** Bounds on what a measurement returns *)

Lemma forall_range_spec (p : Z -> bool) (n : nat) (lo : Z) :
  forall_range lo n p = true ->
  forall z, lo <= z < lo + Z.of_nat n -> p z = true.
Proof.
  revert lo. induction n as [| n IH]; intros lo H z Hz; [lia |].
  cbn [forall_range] in H. apply andb_prop in H as [Hlo Hrest].
  destruct (Z.eq_dec z lo) as [-> | Hne]; [exact Hlo |].
  apply (IH (lo + 1) Hrest). lia.
Qed.

Lemma accel_quotients_within :
  forall_range (-32768) (Z.to_nat 65536)
    (fun raw =>
       forallb (fun mn : float * Z =>
                  within (float_of_int (snd mn)) (int_div_float raw (fst mn))
                  && within (PrimFloat.mul (float_of_int (snd mn)) GRAVITIY_MS2)
                            (PrimFloat.mul (int_div_float raw (fst mn)) GRAVITIY_MS2))
               [(ACCEL_SCALE_MODIFIER_2G, 2); (ACCEL_SCALE_MODIFIER_4G, 4);
                (ACCEL_SCALE_MODIFIER_8G, 8); (ACCEL_SCALE_MODIFIER_16G, 16)])
  = true.
Proof. vm_compute. reflexivity. Qed.

Lemma temperatures_within :
  forall_range (-32768) (Z.to_nat 65536)
    (fun raw =>
       let t := PrimFloat.add (int_truediv raw 340) 36.53%float in
       PrimFloat.leb (-59.85)%float t && PrimFloat.leb t 132.91%float)
  = true.
Proof. vm_compute. reflexivity. Qed.

(** X9: under each of the four accelerometer ranges, no axis that
    [get_accel_data] returns exceeds the range in magnitude: with the
    register at the encoding for which [read_accel_range(False)] gives [n],
    every axis is within [-n, n] in g and within [-n * 9.80665, n * 9.80665]
    in m/s^2, for every signed 16-bit sample. *)
Theorem get_accel_data_within_range
        (self : self_t) (w : world) (cfg n x y z : Z) :
  In (cfg, n) accel_nominal ->
  shows w (address self) ACCEL_XOUT0 x ->
  shows w (address self) ACCEL_YOUT0 y ->
  shows w (address self) ACCEL_ZOUT0 z ->
  holds w (address self) ACCEL_CONFIG cfg ->
  (exists vx vy vz,
      fst (get_accel_data self (PyBool true) w)
        = Ok (PyDict [("x", PyFloat vx); ("y", PyFloat vy); ("z", PyFloat vz)])
      /\ within (float_of_int n) vx = true
      /\ within (float_of_int n) vy = true
      /\ within (float_of_int n) vz = true)
  /\ (exists vx vy vz,
      fst (get_accel_data self (PyBool false) w)
        = Ok (PyDict [("x", PyFloat vx); ("y", PyFloat vy); ("z", PyFloat vz)])
      /\ within (PrimFloat.mul (float_of_int n) 9.80665%float) vx = true
      /\ within (PrimFloat.mul (float_of_int n) 9.80665%float) vy = true
      /\ within (PrimFloat.mul (float_of_int n) 9.80665%float) vz = true).
Proof.
  intros Hn Hx Hy Hz Hc.
  rewrite !(get_accel_data_ok _ _ _ _ _ _ _ Hx Hy Hz Hc).
  cbn [fst is_True is_False]. cbv zeta. unfold xyz.
  assert (Hall : forall raw, -32768 <= raw <= 32767 ->
            within (float_of_int n)
                   (int_div_float raw
                      (default ACCEL_SCALE_MODIFIER_2G (scale_of accel_scale_table cfg)))
              = true
            /\ within (PrimFloat.mul (float_of_int n) 9.80665%float)
                      (PrimFloat.mul
                         (int_div_float raw
                            (default ACCEL_SCALE_MODIFIER_2G
                                     (scale_of accel_scale_table cfg)))
                         GRAVITIY_MS2)
              = true).
  { intros raw Hraw.
    pose proof (forall_range_spec _ _ _ accel_quotients_within raw) as Hchk.
    cbv beta in Hchk. rewrite Z2Nat.id in Hchk by lia.
    specialize (Hchk ltac:(lia)). cbn [forallb fst snd] in Hchk.
    apply andb_prop in Hchk as [H2 Hchk]. apply andb_prop in Hchk as [H4 Hchk].
    apply andb_prop in Hchk as [H8 Hchk]. apply andb_prop in Hchk as [H16 _].
    apply andb_prop in H2, H4, H8, H16.
    repeat (destruct Hn as [E | Hn]; [injection E as <- <-; assumption |]).
    destruct Hn. }
  destruct Hx as [Rx _], Hy as [Ry _], Hz as [Rz _].
  destruct (Hall x Rx) as [Gx Mx], (Hall y Ry) as [Gy My], (Hall z Rz) as [Gz Mz].
  split; eexists _, _, _; (split; [reflexivity | auto]).
Qed.

Lemma get_accel_data_within_range_witness :
  exists vx vy vz,
    fst (get_accel_data (Self 0x68) (PyBool true) sample_device)
      = Ok (PyDict [("x", PyFloat vx); ("y", PyFloat vy); ("z", PyFloat vz)])
    /\ within (float_of_int 2) vx = true
    /\ within (float_of_int 2) vy = true
    /\ within (float_of_int 2) vz = true.
Proof.
  refine (proj1 (get_accel_data_within_range (Self 0x68) sample_device
                   ACCEL_RANGE_2G 2 16384 (-16384) 0 _ _ _ _ eq_refl)).
  - left; reflexivity.
  - split; [lia | split; reflexivity].
  - split; [lia | split; reflexivity].
  - split; [lia | split; reflexivity].
Defined.

(** X10: for every signed 16-bit sample in the temperature registers,
    [get_temp] returns a finite float between -59.85 and 132.91 degrees
    Celsius. *)
Theorem get_temp_within_bounds (self : self_t) (w : world) (raw : Z) :
  shows w (address self) TEMP_OUT0 raw ->
  exists t,
    fst (get_temp self w) = Ok (PyFloat t)
    /\ PrimFloat.leb (-59.85)%float t = true
    /\ PrimFloat.leb t 132.91%float = true.
Proof.
  intros H. rewrite (get_temp_ok _ _ _ H). cbn [fst].
  eexists. split; [reflexivity |].
  destruct H as [Hraw _].
  pose proof (forall_range_spec _ _ _ temperatures_within raw) as Hchk.
  cbv beta zeta in Hchk. rewrite Z2Nat.id in Hchk by lia.
  specialize (Hchk ltac:(lia)). apply andb_prop in Hchk. exact Hchk.
Qed.

Lemma get_temp_within_bounds_witness :
  exists t,
    fst (get_temp (Self 0x68) sample_device) = Ok (PyFloat t)
    /\ PrimFloat.leb (-59.85)%float t = true
    /\ PrimFloat.leb t 132.91%float = true.
Proof.
  apply (get_temp_within_bounds (Self 0x68) sample_device 340).
  split; [lia | split; reflexivity].
Defined.
